(** * MP4 to MP3 batch converter: a shallow embedding of [main.py]

    The script discovers [.mp4] files, derives the [.mp3] output path of each,
    runs [ffmpeg] once per file and folds the return codes into the exit code
    of the process.  The embedding follows the script function by function:

    - [pathlib]: the few operations of Python's [pathlib] the script calls
      ([suffix], [with_suffix], [name], [/], [exists], [is_file], [glob],
      [mkdir]), over a directory tree, with the POSIX flavour of the library;
    - the functions of the script, in a state-and-exception monad whose state
      is the world outside the interpreter (the file tree and whatever else
      the external tool depends on) and whose log records what the run
      printed and which programs it looked up and started. *)

From Stdlib Require Import String Ascii List ZArith Bool Lia DecimalString.
From Stdlib Require Import DecimalZ DecimalPos.
From Stdlib Require Import Sorting.Sorted Sorting.Permutation.
Import ListNotations.

Set Warnings "-register-all".

Local Open Scope string_scope.
Local Open Scope list_scope.

(** ** Exceptions and results *)

(** The exceptions the modelled code can raise. *)
Inductive exn : Type :=
| SystemExit (code : Z)
| ValueError
| FileExistsError
| NotADirectoryError.

Inductive res (A : Type) : Type :=
| Ok (a : A)
| Raise (e : exn).

Arguments Ok {A} a.
Arguments Raise {A} e.

(** ** Strings *)

Module pystr.

(** [str.lower] on one byte.  A path is the string of its UTF-8 bytes; the
    bytes of a non-ASCII character are left alone.  The script compares
    the lowered suffix with [".mp4"] only, and no character outside ASCII
    lowers to one of [.], [m], [p], [4]. *)
Definition lower_ascii (c : ascii) : ascii :=
  let n := nat_of_ascii c in
  if (65 <=? n)%nat && (n <=? 90)%nat then ascii_of_nat (n + 32) else c.

Fixpoint lower (s : string) : string :=
  match s with
  | EmptyString => EmptyString
  | String c s' => String (lower_ascii c) (lower s')
  end.

(** [s.rfind(c)]: the highest index at which [c] occurs; Python's [-1] is
    [None]. *)
Fixpoint rfind (c : ascii) (s : string) : option nat :=
  match s with
  | EmptyString => None
  | String d s' =>
      match rfind c s' with
      | Some i => Some (S i)
      | None => if Ascii.eqb d c then Some 0%nat else None
      end
  end.

(** [c in s]. *)
Fixpoint contains (c : ascii) (s : string) : bool :=
  match s with
  | EmptyString => false
  | String d s' => Ascii.eqb d c || contains c s'
  end.

Definition startswith (c : ascii) (s : string) : bool :=
  match s with
  | EmptyString => false
  | String d _ => Ascii.eqb d c
  end.

(** [str(n)] for an integer. *)
Definition of_int (z : Z) : string := NilZero.string_of_int (Z.to_int z).

(** [fnmatch] for patterns made of literal bytes, [?] and [*], matched
    case-sensitively and against the whole name, as [pathlib] compiles
    the components of a glob pattern on POSIX. *)
Fixpoint fnmatch (pat : string) (s : string) {struct pat} : bool :=
  match pat with
  | EmptyString => match s with EmptyString => true | _ => false end
  | String "*" pat' =>
      (fix star (t : string) : bool :=
         fnmatch pat' t
         || match t with
            | EmptyString => false
            | String _ t' => star t'
            end) s
  | String "?" pat' =>
      match s with
      | EmptyString => false
      | String _ s' => fnmatch pat' s'
      end
  | String c pat' =>
      match s with
      | EmptyString => false
      | String d s' => Ascii.eqb c d && fnmatch pat' s'
      end
  end.

End pystr.

(** ** Paths and the file tree *)

Module pathlib.

(** A [PurePosixPath]: whether it is anchored at the root, and its name
    components below the anchor.  Components are ordinary names: the
    library keeps [..] as it is and the tree below has no such entry. *)
Record Path : Type := mkPath { anchored : bool; parts : list string }.

(** [str(p)]. *)
Definition str (p : Path) : string :=
  match anchored p, parts p with
  | false, [] => "."
  | false, ps => String.concat "/" ps
  | true, ps => ("/" ++ String.concat "/" ps)%string
  end.

(** [p.name]: the last component, empty when there is none. *)
Definition name (p : Path) : string := last (parts p) "".

(** [p.parent], on a path that has a name. *)
Definition parent (p : Path) : Path :=
  mkPath (anchored p) (removelast (parts p)).

(** The suffix of a file name: from its last dot on, when that dot is
    neither the first nor the last byte. *)
Definition name_suffix (nm : string) : string :=
  match pystr.rfind "." nm with
  | Some i =>
      if (0 <? i)%nat && (i + 1 <? String.length nm)%nat
      then substring i (String.length nm - i) nm
      else ""
  | None => ""
  end.

(** [p.suffix]. *)
Definition suffix (p : Path) : string := name_suffix (name p).

(** [p.stem]: the name without its suffix. *)
Definition stem (p : Path) : string :=
  substring 0 (String.length (name p) - String.length (suffix p)) (name p).

(** [p.with_suffix(sfx)]. *)
Definition with_suffix (p : Path) (sfx : string) : res Path :=
  if pystr.contains "/" sfx then Raise ValueError
  else if (negb (String.eqb sfx "") && negb (pystr.startswith "." sfx))
          || String.eqb sfx "."
  then Raise ValueError
  else if String.eqb (name p) "" then Raise ValueError
  else
    let old_suffix := suffix p in
    let nm :=
      if String.eqb old_suffix "" then (name p ++ sfx)%string
      else (substring 0 (String.length (name p) - String.length old_suffix)
                      (name p) ++ sfx)%string in
    Ok (mkPath (anchored p) (removelast (parts p) ++ [nm])).

(** [d / nm] for a single component [nm]; joining the empty string gives
    [d] back. *)
Definition joinname (d : Path) (nm : string) : Path :=
  if String.eqb nm "" then d else mkPath (anchored d) (parts d ++ [nm]).

(** What [sorted] compares: the components, the anchor first. *)
Definition cparts (p : Path) : list string :=
  (if anchored p then ["/"] else []) ++ parts p.

(** [a < b] on lists of strings, as Python orders sequences. *)
Fixpoint parts_lt (a b : list string) : bool :=
  match a, b with
  | _, [] => false
  | [], _ :: _ => true
  | x :: a', y :: b' =>
      match String.compare x y with
      | Lt => true
      | Gt => false
      | Eq => parts_lt a' b'
      end
  end.

Definition path_lt (p q : Path) : bool := parts_lt (cparts p) (cparts q).

(** [sorted]: a stable sort that only asks [<]. *)
Fixpoint insert (x : Path) (l : list Path) : list Path :=
  match l with
  | [] => [x]
  | y :: l' => if path_lt x y then x :: l else y :: insert x l'
  end.

Definition sorted (l : list Path) : list Path :=
  fold_left (fun acc x => insert x acc) l [].

(** *** The file tree *)

(** A node of the tree: a regular file, a directory with its entries in
    the order the system lists them, or anything else that has a name
    (a FIFO, a socket, a device). *)
Inductive node : Type :=
| File
| Other
| Dir (entries : list (string * node)).

Record FileSystem : Type := mkFS { root : node; cwd : list string }.

Fixpoint find_entry (nm : string) (es : list (string * node)) : option node :=
  match es with
  | [] => None
  | (n, c) :: es' => if String.eqb n nm then Some c else find_entry nm es'
  end.

Fixpoint set_entry (nm : string) (c : node) (es : list (string * node))
  : list (string * node) :=
  match es with
  | [] => [(nm, c)]
  | (n, x) :: es' =>
      if String.eqb n nm then (n, c) :: es' else (n, x) :: set_entry nm c es'
  end.

Fixpoint lookup (ps : list string) (n : node) : option node :=
  match ps with
  | [] => Some n
  | nm :: rest =>
      match n with
      | Dir es =>
          match find_entry nm es with
          | Some c => lookup rest c
          | None => None
          end
      | _ => None
      end
  end.

(** The components from the root that the system resolves [p] to. *)
Definition resolve (fs : FileSystem) (p : Path) : list string :=
  (if anchored p then [] else cwd fs) ++ parts p.

Definition stat (fs : FileSystem) (p : Path) : option node :=
  lookup (resolve fs p) (root fs).

(** [p.exists()], [p.is_file()], [p.is_dir()]. *)
Definition exists_ (fs : FileSystem) (p : Path) : bool :=
  match stat fs p with Some _ => true | None => false end.

Definition is_file (fs : FileSystem) (p : Path) : bool :=
  match stat fs p with Some File => true | _ => false end.

Definition is_dir (fs : FileSystem) (p : Path) : bool :=
  match stat fs p with Some (Dir _) => true | _ => false end.

(** [p.glob(pat)] for a pattern of one component: the entries of the
    directory [p] whose name matches; nothing when [p] is no directory. *)
Definition glob (fs : FileSystem) (p : Path) (pat : string) : list Path :=
  match stat fs p with
  | Some (Dir es) =>
      map (fun e => mkPath (anchored p) (parts p ++ [fst e]))
          (filter (fun e => pystr.fnmatch pat (fst e)) es)
  | _ => []
  end.

(** The matches of [pat] among the entries of [n] and of every directory
    below it, [pre] being the components that lead to [n]. *)
Fixpoint walk (pat : string) (pre : list string) (n : node) : list (list string) :=
  match n with
  | Dir es =>
      flat_map
        (fun e =>
           (if pystr.fnmatch pat (fst e) then [pre ++ [fst e]] else [])
           ++ walk pat (pre ++ [fst e]) (snd e))
        es
  | _ => []
  end.

(** [p.glob("**/" + pat)], that is [p.rglob(pat)]. *)
Definition rglob (fs : FileSystem) (p : Path) (pat : string) : list Path :=
  match stat fs p with
  | Some n => map (mkPath (anchored p)) (walk pat (parts p) n)
  | None => []
  end.

(** [os.makedirs]-like creation of the directory at [ps] below [n]
    ([None]: nothing is there), as [mkdir(parents=True, exist_ok=True)]
    does it: missing directories are created, existing ones kept, and
    anything else in the way raises. *)
Fixpoint makedirs (ps : list string) (n : option node) : res node :=
  match ps with
  | [] =>
      match n with
      | None => Ok (Dir [])
      | Some (Dir es) => Ok (Dir es)
      | Some _ => Raise FileExistsError
      end
  | nm :: rest =>
      match n with
      | None =>
          match makedirs rest None with
          | Ok c => Ok (Dir [(nm, c)])
          | Raise e => Raise e
          end
      | Some (Dir es) =>
          match makedirs rest (find_entry nm es) with
          | Ok c => Ok (Dir (set_entry nm c es))
          | Raise e => Raise e
          end
      | Some _ => Raise NotADirectoryError
      end
  end.

(** [p.mkdir(parents=True, exist_ok=True)]. *)
Definition mkdir (fs : FileSystem) (p : Path) : res FileSystem :=
  match makedirs (resolve fs p) (Some (root fs)) with
  | Ok r => Ok (mkFS r (cwd fs))
  | Raise e => Raise e
  end.

End pathlib.

Import pathlib.

(** ** The world, the log and the monad of the script *)

(** How [subprocess.run(cmd, check=False)] ends: the child ran and returned
    a code, or no program of that name could be started
    ([FileNotFoundError]). *)
Inductive completion : Type :=
| Returned (returncode : Z)
| NoSuchProgram.

(** What a run does that can be seen from outside, in order. *)
Inductive event : Type :=
| Stdout (line : string)
| Stderr (line : string)
| Which (program : string)
| Exec (cmd : list string) (outcome : completion).

(** The parsed command line ([argparse.Namespace]). *)
Record Namespace : Type := mkArgs {
  input : Path;
  output_dir : option Path;
  bitrate : string;
  recursive : bool;
  overwrite : bool
}.

(** The three outcomes the specification names for one file. *)
Inductive ConversionOutcome : Type :=
| Success
| SkippedExisting
| Failed (code : Z).

Section Script.

(** The state outside the file tree that the external programs depend on
    (the search path, what is installed, the media themselves). *)
Context {Env : Type}.

Record World : Type := mkWorld { fs : FileSystem; env : Env }.

(** [shutil.which]: where a program is, if anywhere. *)
Variable shutil_which : string -> World -> option string.

(** [subprocess.run]: the external program does what it does to the
    world and completes. *)
Variable subprocess_run : list string -> World -> completion * World.

(** A computation reads and changes the world, appends to the log and
    returns or raises. *)
Definition M (A : Type) : Type := World -> res A * World * list event.

Definition ret {A} (a : A) : M A := fun w => (Ok a, w, []).

Definition raise {A} (e : exn) : M A := fun w => (Raise e, w, []).

Definition bind {A B} (m : M A) (k : A -> M B) : M B :=
  fun w =>
    match m w with
    | (Ok a, w1, l1) =>
        match k a w1 with
        | (r, w2, l2) => (r, w2, l1 ++ l2)
        end
    | (Raise e, w1, l1) => (Raise e, w1, l1)
    end.

Notation "x <- m ;; k" := (bind m (fun x => k))
  (at level 61, m at next level, right associativity).
Notation "m ;;; k" := (bind m (fun _ => k))
  (at level 61, right associativity).

Definition emit (e : event) : M unit := fun w => (Ok tt, w, [e]).

(** [print(s)] and [print(s, file=sys.stderr)]. *)
Definition print (s : string) : M unit := emit (Stdout s).
Definition eprint (s : string) : M unit := emit (Stderr s).

Definition lift {A} (r : res A) : M A := fun w => (r, w, []).

(** An observation of the world that changes nothing. *)
Definition reads {A} (f : World -> A) : M A := fun w => (Ok (f w), w, []).

Definition Path_exists (p : Path) : M bool :=
  reads (fun w => exists_ (fs w) p).

Definition Path_mkdir (p : Path) : M unit :=
  fun w =>
    match mkdir (fs w) p with
    | Ok fs' => (Ok tt, mkWorld fs' (env w), [])
    | Raise e => (Raise e, w, [])
    end.

Definition newline : string := String (ascii_of_nat 10) "".

Definition ffmpeg_missing_message : string :=
  String.concat newline
    [ "ffmpeg가 설치되어 있지 않습니다.";
      "설치 방법:";
      "- macOS (Homebrew): brew install ffmpeg";
      "- Ubuntu/Debian:   sudo apt-get update && sudo apt-get install -y ffmpeg";
      "- Windows (scoop):  scoop install ffmpeg";
      "- Windows (choco):  choco install ffmpeg";
      "설치 후 다시 시도하세요." ].

(** The look-up of a program on the search path, logged. *)
Definition which (program : string) : M (option string) :=
  fun w => (Ok (shutil_which program w), w, [Which program]).

(** [ensure_ffmpeg_available]. *)
Definition ensure_ffmpeg_available : M unit :=
  found <- which "ffmpeg" ;;
  match found with
  | None => eprint ffmpeg_missing_message ;;; raise (SystemExit 127)
  | Some _ => ret tt
  end.

(** [find_mp4_files]. *)
Definition find_mp4_files (fsys : FileSystem) (target : Path) (rec : bool)
  : list Path :=
  if is_file fsys target then
    if String.eqb (pystr.lower (suffix target)) ".mp4" then [target] else []
  else
    sorted (filter (is_file fsys)
                   (if rec then rglob fsys target "*.mp4"
                    else glob fsys target "*.mp4")).

(** [build_output_path]. *)
Definition build_output_path (input_path : Path) (out : option Path) : M Path :=
  match out with
  | None => lift (with_suffix input_path ".mp3")
  | Some d =>
      Path_mkdir d ;;;
      lift (with_suffix (joinname d (name input_path)) ".mp3")
  end.

(** The argument vector [convert_one] hands to [subprocess.run]. *)
Definition ffmpeg_cmd (input_path output_path : Path) (rate : string)
           (force : bool) : list string :=
  [ "ffmpeg";
    "-hide_banner";
    "-loglevel";
    "error";
    if force then "-y" else "-n";
    "-i";
    str input_path;
    "-vn";
    "-acodec";
    "libmp3lame";
    "-b:a";
    rate;
    str output_path ].

Definition ffmpeg_not_found_message : string :=
  "ffmpeg 실행 파일을 찾을 수 없습니다. 설치를 확인하세요.".

(** [convert_one]. *)
Definition convert_one (input_path output_path : Path) (rate : string)
           (force : bool) : M Z :=
  let cmd := ffmpeg_cmd input_path output_path rate force in
  fun w =>
    match subprocess_run cmd w with
    | (Returned code, w') => (Ok code, w', [Exec cmd (Returned code)])
    | (NoSuchProgram, w') =>
        (Ok 127%Z, w', [Exec cmd NoSuchProgram; Stderr ffmpeg_not_found_message])
    end.

Definition progress_line (idx total : Z) (src dst : Path) : string :=
  "[" ++ pystr.of_int idx ++ "/" ++ pystr.of_int total ++ "] 변환 중: "
      ++ str src ++ " -> " ++ str dst.

Definition skip_line (dst : Path) : string :=
  "스킵: 출력 파일이 이미 존재합니다 (덮어쓰지 않음): " ++ str dst.

Definition failure_line (code : Z) (src : Path) : string :=
  "실패 (코드 " ++ pystr.of_int code ++ "): " ++ str src.

(** The body of the loop of [main], returning the failure counter. *)
Definition loop_body (args : Namespace) (total idx : Z) (src : Path)
           (failures : Z) : M Z :=
  dst <- build_output_path src (output_dir args) ;;
  print (progress_line idx total src dst) ;;;
  code <- convert_one src dst (bitrate args) (overwrite args) ;;
  if (code =? 0)%Z then ret failures
  else
    skipped <- (if (code =? 1)%Z && negb (overwrite args)
                then Path_exists dst else ret false) ;;
    if skipped then
      print (skip_line dst) ;;; ret failures
    else
      eprint (failure_line code src) ;;; ret (failures + 1)%Z.

(** [for idx, src in enumerate(inputs, start=idx)]. *)
Fixpoint for_each (args : Namespace) (total idx : Z) (inputs : list Path)
         (failures : Z) : M Z :=
  match inputs with
  | [] => ret failures
  | src :: rest =>
      failures' <- loop_body args total idx src failures ;;
      for_each args total (idx + 1)%Z rest failures'
  end.

Definition not_found_line (target : Path) : string :=
  "입력 경로를 찾을 수 없습니다: " ++ str target.

Definition nothing_line : string := "변환할 MP4 파일을 찾지 못했습니다.".

Definition summary_failed_line (total failures : Z) : string :=
  "완료: 성공 " ++ pystr.of_int (total - failures) ++ " / 실패 "
                ++ pystr.of_int failures.

Definition summary_ok_line (total : Z) : string :=
  "완료: 총 " ++ pystr.of_int total ++ "개 파일 변환 성공".

(** [main], from the parsed arguments on. *)
Definition main (args : Namespace) : M Z :=
  ensure_ffmpeg_available ;;;
  let target := input args in
  found <- Path_exists target ;;
  if negb found then
    eprint (not_found_line target) ;;; ret 2%Z
  else
    inputs <- reads (fun w => find_mp4_files (fs w) target (recursive args)) ;;
    match inputs with
    | [] => eprint nothing_line ;;; ret 1%Z
    | _ :: _ =>
        let total := Z.of_nat (List.length inputs) in
        failures <- for_each args total 1%Z inputs 0%Z ;;
        if negb (failures =? 0)%Z then
          print (summary_failed_line total failures) ;;; ret 1%Z
        else
          print (summary_ok_line total) ;;; ret 0%Z
    end.

(** [sys.exit(main(...))]: the exit status of the process.  An exception
    that nothing catches ends the interpreter with status 1. *)
Definition exit_status (r : res Z) : Z :=
  match r with
  | Ok code => code
  | Raise (SystemExit code) => code
  | Raise _ => 1%Z
  end.

Definition run (args : Namespace) (w : World) : Z * World * list event :=
  match main args w with
  | (r, w', l) => (exit_status r, w', l)
  end.

(** *** The vocabulary of the specification *)

(** The classification of one return code, in the words of the
    specification: 0 is a success; 1 without the overwrite flag and with
    the output on disk is a skip; anything else is a failure. *)
Definition classify (code : Z) (force dst_on_disk : bool) : ConversionOutcome :=
  if (code =? 0)%Z then Success
  else if (code =? 1)%Z && negb force && dst_on_disk then SkippedExisting
  else Failed code.

(** The outcomes of the files a batch gets through, in order: each is
    the class of the code [convert_one] returned, the output looked up
    in the world the tool left.  The list stops where the batch does. *)
Fixpoint outcomes (args : Namespace) (inputs : list Path) (w : World)
  : list ConversionOutcome :=
  match inputs with
  | [] => []
  | src :: rest =>
      match build_output_path src (output_dir args) w with
      | (Ok dst, w1, _) =>
          match convert_one src dst (bitrate args) (overwrite args) w1 with
          | (Ok code, w2, _) =>
              classify code (overwrite args) (exists_ (fs w2) dst)
              :: outcomes args rest w2
          | (Raise _, _, _) => []
          end
      | (Raise _, _, _) => []
      end
  end.

Definition is_failed (o : ConversionOutcome) : bool :=
  match o with Failed _ => true | _ => false end.

(** What [convert_one] returns for each way the child can end. *)
Definition returncode (c : completion) : Z :=
  match c with
  | Returned code => code
  | NoSuchProgram => 127%Z
  end.

(** The [Exec] events of a log. *)
Definition is_exec (e : event) : bool :=
  match e with Exec _ _ => true | _ => false end.

Definition execs (l : list event) : list event := filter is_exec l.

End Script.

(** The name of [p] ends in [.mp4], in any mix of cases, after a stem that
    is not empty: the extension of the supported input type, compared
    without regard to case. *)
Definition mp4_extension (p : Path) : Prop :=
  exists st e,
    name p = (st ++ e)%string /\ st <> EmptyString /\
    In e [".mp4"; ".mP4"; ".Mp4"; ".MP4"].

(** Something that is not a directory sits on the way to [d]: at [d]
    itself or at one of the directories above it. *)
Definition obstructed (fsys : FileSystem) (d : Path) : Prop :=
  exists k,
    match lookup (firstn k (resolve fsys d)) (root fsys) with
    | Some File | Some Other => True
    | _ => False
    end.

(** No prefix of [ps] leads to something that is not a directory. *)
Definition way_clear (ps : list string) (n : node) : Prop :=
  forall k,
    match lookup (firstn k ps) n with
    | Some File | Some Other => False
    | _ => True
    end.

(** Every prefix of [ps] leads to a directory. *)
Definition all_dirs (ps : list string) (n : node) : Prop :=
  forall k, exists es, lookup (firstn k ps) n = Some (Dir es).

(** [b] is not below [a] in the order [sorted] uses. *)
Definition not_after (a b : Path) : Prop := path_lt b a = false.

(** Induction on a tree, with the hypothesis for every entry of a
    directory. *)
Fixpoint node_ind_entries (P : node -> Prop) (HF : P File) (HO : P Other)
         (HD : forall es, Forall (fun e => P (snd e)) es -> P (Dir es))
         (n : node) : P n :=
  match n with
  | File => HF
  | Other => HO
  | Dir es =>
      HD es ((fix entries (l : list (string * node))
                : Forall (fun e => P (snd e)) l :=
                match l with
                | [] => Forall_nil _
                | e :: l' =>
                    Forall_cons e (node_ind_entries P HF HO HD (snd e))
                                (entries l')
                end) es)
  end.

(** [p] and every directory above it, up to the anchor. *)
Definition ancestors (p : Path) : list Path :=
  map (fun k => mkPath (anchored p) (firstn k (parts p)))
      (seq 0 (S (List.length (parts p)))).

(** A program that was started and did not return 0, or that could not
    be started. *)
Definition is_unsuccessful (e : event) : bool :=
  match e with
  | Exec _ (Returned code) => negb (code =? 0)%Z
  | Exec _ NoSuchProgram => true
  | _ => false
  end.

(** [enumerate(l, start)]: the items of [l] with their numbers. *)
Fixpoint enumerate {A : Type} (start : Z) (l : list A) : list (Z * A) :=
  match l with
  | [] => []
  | x :: l' => (start, x) :: enumerate (start + 1)%Z l'
  end.

(** ** A small world to run the script in *)

Module Demo.

(** [/home/videos] holds two videos in lower case, one in upper case,
    an audio file left by an earlier run, a text file and a directory
    with two more videos; the working directory is [/home]. *)
Definition tree : node :=
  Dir [("home",
        Dir [("videos",
              Dir [("b.mp4", File);
                   ("A.MP4", File);
                   ("b.mp3", File);
                   ("a.mp4", File);
                   ("notes.txt", File);
                   ("old", Dir [("c.mp4", File); ("D.Mp4", File)])]);
             ("empty", Dir [("readme.md", File)])])].

Definition disk : FileSystem := mkFS tree ["home"].

Definition world : @World unit := mkWorld disk tt.

Definition videos : Path := mkPath false ["videos"].
Definition a_mp4 : Path := mkPath false ["videos"; "a.mp4"].
Definition b_mp4 : Path := mkPath false ["videos"; "b.mp4"].
Definition b_mp3 : Path := mkPath false ["videos"; "b.mp3"].
Definition a_mp3 : Path := mkPath false ["videos"; "a.mp3"].
Definition c_mp4 : Path := mkPath false ["videos"; "old"; "c.mp4"].
Definition upper_mp4 : Path := mkPath false ["videos"; "A.MP4"].
Definition out : Path := mkPath false ["out"; "audio"].

Definition installed (_ : string) (_ : @World unit) : option string :=
  Some "/usr/bin/ffmpeg".

Definition not_installed (_ : string) (_ : @World unit) : option string :=
  None.

(** A tool that always returns [code] and touches nothing. *)
Definition returns (code : Z) (_ : list string) (w : @World unit)
  : completion * @World unit := (Returned code, w).


Definition args_dir : Namespace := mkArgs videos None "192k" false false.
Definition args_b : Namespace := mkArgs b_mp4 None "192k" false false.
Definition args_a : Namespace := mkArgs a_mp4 None "192k" false false.
Definition args_missing : Namespace :=
  mkArgs (mkPath false ["nowhere"]) None "192k" false false.
Definition args_empty : Namespace :=
  mkArgs (mkPath false ["empty"]) None "192k" true false.

End Demo.

(** ** Facts about strings *)

Section StringFacts.

Lemma append_empty_r (s : string) : (s ++ "")%string = s.
Proof. induction s as [|c s IH]; simpl; [reflexivity | now rewrite IH]. Qed.

Lemma length_append (a b : string) :
  String.length (a ++ b) = String.length a + String.length b.
Proof. induction a as [|c a IH]; simpl; [reflexivity | now rewrite IH]. Qed.

Lemma substring_all (s : string) : substring 0 (String.length s) s = s.
Proof. induction s as [|c s IH]; simpl; [reflexivity | now rewrite IH]. Qed.

Lemma substring_prefix (a b : string) :
  substring 0 (String.length a) (a ++ b) = a.
Proof.
  induction a as [|c a IH]; simpl.
  - now destruct b.
  - now rewrite IH.
Qed.

Lemma substring_suffix (a b : string) :
  substring (String.length a) (String.length b) (a ++ b) = b.
Proof.
  induction a as [|c a IH]; simpl.
  - apply substring_all.
  - exact IH.
Qed.

(** Cutting a string at an index inside it loses nothing. *)
Lemma substring_split (s : string) (i : nat) :
  i <= String.length s ->
  s = (substring 0 i s ++ substring i (String.length s - i) s)%string.
Proof.
  revert i; induction s as [|c s IH]; intros [|i] Hi; simpl in *;
    try reflexivity; try lia.
  - now rewrite substring_all.
  - f_equal. apply IH. lia.
Qed.

Lemma length_substring_prefix (s : string) (i : nat) :
  i <= String.length s -> String.length (substring 0 i s) = i.
Proof.
  revert i; induction s as [|c s IH]; intros [|i] Hi; simpl in *;
    try reflexivity; try lia.
  f_equal. apply IH. lia.
Qed.

Lemma rfind_lt (c : ascii) (s : string) (i : nat) :
  pystr.rfind c s = Some i -> i < String.length s.
Proof.
  revert i; induction s as [|d s IH]; simpl; intros i H; [discriminate|].
  destruct (pystr.rfind c s) as [j|].
  - injection H as <-. specialize (IH j eq_refl). lia.
  - destruct (Ascii.eqb d c); [injection H as <-; lia | discriminate].
Qed.

Lemma rfind_none (c : ascii) (s : string) :
  pystr.contains c s = false -> pystr.rfind c s = None.
Proof.
  induction s as [|d s IH]; simpl; intros H; [reflexivity|].
  apply orb_false_iff in H as [Hd Hs].
  now rewrite (IH Hs), Hd.
Qed.

(** The last occurrence of [c] in [a ++ c :: x] is the one shown when
    [x] has none. *)
Lemma rfind_last (c : ascii) (a x : string) :
  pystr.contains c x = false ->
  pystr.rfind c (a ++ String c x) = Some (String.length a).
Proof.
  intros Hx. induction a as [|d a IH]; simpl.
  - now rewrite (rfind_none _ _ Hx), Ascii.eqb_refl.
  - now rewrite IH.
Qed.

(** What is left of [s] from its last [c] on starts with [c] and has no
    other. *)
Lemma rfind_tail (c : ascii) (s : string) (i : nat) :
  pystr.rfind c s = Some i ->
  exists x, substring i (String.length s - i) s = String c x /\
            pystr.contains c x = false.
Proof.
  revert i; induction s as [|d s IH]; simpl; intros i H; [discriminate|].
  destruct (pystr.rfind c s) as [j|] eqn:Hj.
  - injection H as <-. simpl. now apply IH.
  - destruct (Ascii.eqb d c) eqn:Hd; [|discriminate].
    injection H as <-. apply Ascii.eqb_eq in Hd as ->.
    exists s. simpl. rewrite substring_all. split; [reflexivity|].
    clear IH. induction s as [|e s IH]; simpl in *; [reflexivity|].
    destruct (pystr.rfind c s); [discriminate|].
    destruct (Ascii.eqb e c); [discriminate|]. simpl. now apply IH.
Qed.

Lemma lower_ascii_dot (c : ascii) :
  pystr.lower_ascii c = "."%char -> c = "."%char.
Proof.
  destruct c as [[] [] [] [] [] [] [] []]; vm_compute; intros H;
    solve [reflexivity | discriminate H].
Qed.

Lemma lower_ascii_m (c : ascii) :
  pystr.lower_ascii c = "m"%char -> c = "m"%char \/ c = "M"%char.
Proof.
  destruct c as [[] [] [] [] [] [] [] []]; vm_compute; intros H;
    solve [now left | now right | discriminate H].
Qed.

Lemma lower_ascii_p (c : ascii) :
  pystr.lower_ascii c = "p"%char -> c = "p"%char \/ c = "P"%char.
Proof.
  destruct c as [[] [] [] [] [] [] [] []]; vm_compute; intros H;
    solve [now left | now right | discriminate H].
Qed.

Lemma lower_ascii_4 (c : ascii) :
  pystr.lower_ascii c = "4"%char -> c = "4"%char.
Proof.
  destruct c as [[] [] [] [] [] [] [] []]; vm_compute; intros H;
    solve [reflexivity | discriminate H].
Qed.

(** The strings that lower to [".mp4"]. *)
Lemma lower_mp4 (e : string) :
  pystr.lower e = ".mp4" <-> In e [".mp4"; ".mP4"; ".Mp4"; ".MP4"].
Proof.
  split.
  - destruct e as [|c0 [|c1 [|c2 [|c3 [|c4 e]]]]]; simpl; try discriminate.
    intros H. injection H as H0 H1 H2 H3.
    apply lower_ascii_dot in H0 as ->. apply lower_ascii_4 in H3 as ->.
    apply lower_ascii_m in H1 as [-> | ->];
      apply lower_ascii_p in H2 as [-> | ->]; tauto.
  - simpl. intros [<- | [<- | [<- | [<- | []]]]]; reflexivity.
Qed.

(** [*.mp4] matches exactly the names that end in [.mp4], the bare
    [.mp4] among them. *)
Lemma fnmatch_star_mp4 (s : string) :
  pystr.fnmatch "*.mp4" s = true <-> exists t, s = (t ++ ".mp4")%string.
Proof.
  change (pystr.fnmatch "*.mp4" s) with
    ((fix star (t : string) : bool :=
        pystr.fnmatch ".mp4" t
        || match t with
           | EmptyString => false
           | String _ t' => star t'
           end) s).
  assert (Hlit : forall t, pystr.fnmatch ".mp4" t = true <-> t = ".mp4").
  { intros t; split.
    - destruct t as [|c0 [|c1 [|c2 [|c3 [|c4 t]]]]];
        cbn -[Ascii.eqb]; intros H; try discriminate H;
        repeat match type of H with
               | (_ && _ = true) =>
                   let E := fresh "E" in
                   apply andb_true_iff in H; destruct H as [E H];
                   apply Ascii.eqb_eq in E
               end;
        try discriminate H; subst; reflexivity.
    - intros ->; reflexivity. }
  induction s as [|c s IH].
  - split; [intros H | intros [t Ht]].
    + apply orb_true_iff in H as [H | H]; [|discriminate].
      apply Hlit in H. discriminate.
    + destruct t; discriminate.
  - split; [intros H | intros [t Ht]].
    + apply orb_true_iff in H as [H | H].
      * apply Hlit in H. exists EmptyString. now rewrite H.
      * apply IH in H as [t ->]. now exists (String c t).
    + apply orb_true_iff. destruct t as [|d t]; simpl in Ht.
      * left. apply Hlit. exact Ht.
      * right. injection Ht as -> ->. apply IH. now exists t.
Qed.

(** [str(n)] is the decimal numeral of [n]: read back, it gives [n]. *)
Lemma of_int_reads_back (z : Z) :
  option_map Z.of_int (NilZero.int_of_string (pystr.of_int z)) = Some z.
Proof.
  unfold pystr.of_int. rewrite NilZero.isi.
  - simpl. now rewrite DecimalZ.of_to.
  - destruct z as [|q|q]; simpl; try discriminate.
    intros [= H]. revert H. apply DecimalPos.Unsigned.to_uint_nonnil.
  - destruct z as [|q|q]; simpl; try discriminate.
    intros [= H]. revert H. apply DecimalPos.Unsigned.to_uint_nonnil.
Qed.

End StringFacts.

(** ** Facts about paths *)

Section PathFacts.

Lemma length_zero_empty (s : string) : String.length s = 0 -> s = EmptyString.
Proof. destruct s; [reflexivity | discriminate]. Qed.

(** A name made of a stem, a dot and a tail without dots has the dot and
    the tail for suffix. *)
Lemma name_suffix_app (st x : string) :
  st <> EmptyString -> x <> EmptyString -> pystr.contains "." x = false ->
  name_suffix (st ++ String "." x) = String "." x.
Proof.
  intros Hst Hx Hdot. unfold name_suffix.
  rewrite (rfind_last _ _ _ Hdot), length_append.
  assert (0 < String.length st).
  { destruct st; [contradiction | simpl; lia]. }
  assert (0 < String.length x).
  { destruct x; [contradiction | simpl; lia]. }
  replace (0 <? String.length st)%nat with true
    by (symmetry; apply Nat.ltb_lt; lia).
  replace (String.length st + 1 <?
           String.length st + String.length (String "." x))%nat with true
    by (symmetry; apply Nat.ltb_lt; simpl; lia).
  simpl andb. cbv iota.
  replace (String.length st + String.length (String "." x) - String.length st)
    with (String.length (String "." x)) by lia.
  apply substring_suffix.
Qed.

(** A suffix that is not empty splits the name: a stem that is not
    empty, then the suffix, which is a dot and a tail without dots. *)
Lemma name_suffix_split (nm : string) :
  name_suffix nm <> EmptyString ->
  exists st x,
    nm = (st ++ String "." x)%string /\ name_suffix nm = String "." x /\
    st <> EmptyString /\ x <> EmptyString /\ pystr.contains "." x = false /\
    st = substring 0 (String.length nm - String.length (name_suffix nm)) nm.
Proof.
  unfold name_suffix. destruct (pystr.rfind "." nm) as [i|] eqn:Hi;
    [|intros H; now contradiction H].
  destruct ((0 <? i)%nat && (i + 1 <? String.length nm)%nat) eqn:Hc;
    [|intros H; now contradiction H].
  intros _. apply andb_true_iff in Hc as [H0 H1].
  apply Nat.ltb_lt in H0, H1.
  destruct (rfind_tail _ _ _ Hi) as [x [Hx Hdot]].
  exists (substring 0 i nm), x.
  assert (Hsplit := substring_split nm i ltac:(lia)).
  rewrite Hx in Hsplit |- *.
  assert (Hlen : String.length (substring 0 i nm) = i)
    by (apply length_substring_prefix; lia).
  repeat split; try assumption.
  - intros E. rewrite E in Hlen. simpl in Hlen. lia.
  - intros ->. apply (f_equal String.length) in Hsplit.
    rewrite length_append, Hlen in Hsplit. simpl in Hsplit. lia.
  - f_equal. apply (f_equal String.length) in Hsplit.
    rewrite length_append, Hlen in Hsplit. lia.
Qed.

(** The stem of a name that is not empty is not empty, and the name is
    its stem followed by its suffix. *)
Lemma stem_suffix (p : Path) :
  name p <> EmptyString ->
  stem p <> EmptyString /\ name p = (stem p ++ suffix p)%string.
Proof.
  intros Hn. unfold stem, suffix.
  destruct (string_dec (name_suffix (name p)) EmptyString) as [E | E].
  - rewrite E. simpl. rewrite Nat.sub_0_r, substring_all, append_empty_r.
    now split.
  - destruct (name_suffix_split _ E) as (st & x & Hnm & Hs & Hst & _ & _ & Hsub).
    rewrite <- Hsub, Hs. now split.
Qed.

(** [with_suffix(".mp3")] on a path that has a name: the stem, then
    [.mp3], in the same directory. *)
Lemma with_suffix_mp3 (p : Path) :
  name p <> EmptyString ->
  with_suffix p ".mp3" =
  Ok (mkPath (anchored p) (removelast (parts p) ++ [(stem p ++ ".mp3")%string])).
Proof.
  intros Hn. unfold with_suffix.
  replace (pystr.contains "/" ".mp3") with false by reflexivity.
  replace ((negb (".mp3" =? "") && negb (pystr.startswith "." ".mp3")
            || (".mp3" =? "."))%string) with false by reflexivity.
  cbv iota.
  destruct (String.eqb_spec (name p) "") as [E | _]; [contradiction|].
  do 3 f_equal. unfold stem.
  destruct (String.eqb_spec (suffix p) "") as [E | _]; [|reflexivity].
  rewrite E. simpl. now rewrite Nat.sub_0_r, substring_all.
Qed.

Lemma name_snoc (a : bool) (ps : list string) (nm : string) :
  name (mkPath a (ps ++ [nm])) = nm.
Proof. unfold name; simpl. apply last_last. Qed.

(** The result of replacing the suffix by [.mp3]: the same parent, the
    same stem, the suffix [.mp3]. *)
Lemma with_suffix_mp3_shape (p q : Path) :
  name p <> EmptyString ->
  with_suffix p ".mp3" = Ok q ->
  parent q = parent p /\ stem q = stem p /\ suffix q = ".mp3" /\
  name q = (stem p ++ ".mp3")%string.
Proof.
  intros Hn Hq. rewrite (with_suffix_mp3 _ Hn) in Hq. injection Hq as <-.
  destruct (stem_suffix p Hn) as [Hst _].
  assert (Hsfx : suffix (mkPath (anchored p)
                   (removelast (parts p) ++ [(stem p ++ ".mp3")%string])) = ".mp3").
  { unfold suffix. rewrite name_snoc.
    apply (name_suffix_app (stem p) "mp3"); [assumption | discriminate | reflexivity]. }
  repeat split.
  - unfold parent; simpl. now rewrite removelast_last.
  - unfold stem at 1. rewrite Hsfx, name_snoc, length_append. simpl.
    replace (String.length (stem p) + 4 - 4) with (String.length (stem p)) by lia.
    apply substring_prefix.
  - exact Hsfx.
  - apply name_snoc.
Qed.

(** The lowered suffix is [.mp4] exactly for the names [mp4_extension]
    describes. *)
Lemma suffix_lower_mp4 (p : Path) :
  pystr.lower (suffix p) = ".mp4" <-> mp4_extension p.
Proof.
  unfold mp4_extension, suffix. split.
  - intros H.
    assert (Hne : name_suffix (name p) <> EmptyString)
      by (intros E; rewrite E in H; discriminate).
    destruct (name_suffix_split _ Hne) as (st & x & Hnm & Hs & Hst & _).
    exists st, (String "." x). rewrite Hs in H.
    repeat split; [assumption | assumption | now apply lower_mp4].
  - intros (st & e & Hnm & Hst & He). rewrite Hnm.
    assert (name_suffix (st ++ e) = e) as ->; [|now apply lower_mp4].
    simpl in He.
    destruct He as [<- | [<- | [<- | [<- | []]]]];
      apply name_suffix_app; solve [assumption | discriminate | reflexivity].
Qed.

(** A name that [*.mp4] matches is not empty. *)
Lemma fnmatch_mp4_nonempty (s : string) :
  pystr.fnmatch "*.mp4" s = true -> s <> EmptyString.
Proof.
  intros H ->. apply fnmatch_star_mp4 in H as [t Ht]. destruct t; discriminate.
Qed.

End PathFacts.

(** ** Facts about the file tree *)

Section TreeFacts.

Lemma find_entry_set (nm : string) (c : node) (es : list (string * node)) :
  find_entry nm (set_entry nm c es) = Some c.
Proof.
  induction es as [|[n x] es IH]; simpl.
  - now rewrite String.eqb_refl.
  - destruct (String.eqb n nm) eqn:E; simpl; now rewrite E.
Qed.

Lemma set_entry_same (nm : string) (c : node) (es : list (string * node)) :
  find_entry nm es = Some c -> set_entry nm c es = es.
Proof.
  induction es as [|[n x] es IH]; simpl; [discriminate|].
  destruct (String.eqb n nm).
  - now intros [= ->].
  - intros H. now rewrite IH.
Qed.

Lemma makedirs_fresh (ps : list string) :
  exists r, makedirs ps None = Ok r /\ all_dirs ps r.
Proof.
  induction ps as [|nm rest (c & Hc & Hdirs)]; simpl.
  - exists (Dir []). split; [reflexivity|]. intros k. exists [].
    now destruct k.
  - rewrite Hc. exists (Dir [(nm, c)]). split; [reflexivity|].
    intros [|k]; simpl; [now eexists|].
    rewrite String.eqb_refl. apply Hdirs.
Qed.

(** With nothing in the way the directory is made, and it and all the
    directories above it are there afterwards. *)
Lemma makedirs_clear (ps : list string) (n : node) :
  way_clear ps n -> exists r, makedirs ps (Some n) = Ok r /\ all_dirs ps r.
Proof.
  revert n; induction ps as [|nm rest IH]; intros n H.
  - specialize (H 0) as H0. simpl in *. destruct n as [| |es]; try contradiction.
    exists (Dir es). split; [reflexivity|]. intros k. exists es. now destruct k.
  - specialize (H 0) as H0. simpl in H0. destruct n as [| |es]; try contradiction.
    simpl. destruct (find_entry nm es) as [c|] eqn:Hf.
    + destruct (IH c) as (c' & Hc' & Hdirs).
      { intros k. specialize (H (S k)). simpl in H. now rewrite Hf in H. }
      rewrite Hc'. exists (Dir (set_entry nm c' es)). split; [reflexivity|].
      intros [|k]; simpl; [now eexists|].
      rewrite find_entry_set. apply Hdirs.
    + destruct (makedirs_fresh rest) as (c' & Hc' & Hdirs).
      rewrite Hc'. exists (Dir (set_entry nm c' es)). split; [reflexivity|].
      intros [|k]; simpl; [now eexists|].
      rewrite find_entry_set. apply Hdirs.
Qed.

(** With something in the way it raises. *)
Lemma makedirs_blocked (ps : list string) (n : node) :
  ~ way_clear ps n -> exists e, makedirs ps (Some n) = Raise e.
Proof.
  revert n; induction ps as [|nm rest IH]; intros n H.
  - destruct n as [| |es]; simpl; try (now eexists).
    exfalso. apply H. intros k. now destruct k.
  - destruct n as [| |es]; simpl; try (now eexists).
    destruct (find_entry nm es) as [c|] eqn:Hf.
    + destruct (IH c) as [e He].
      { intros Hc. apply H. intros [|k]; simpl; [exact I|].
        rewrite Hf. apply Hc. }
      rewrite He. now eexists.
    + exfalso. apply H. intros [|k]; simpl; [exact I|]. now rewrite Hf.
Qed.

(** A directory that is there is left as it is. *)
Lemma makedirs_existing (ps : list string) (n : node) (es : list (string * node)) :
  lookup ps n = Some (Dir es) -> makedirs ps (Some n) = Ok n.
Proof.
  revert n; induction ps as [|nm rest IH]; intros n H; simpl in *.
  - now injection H as ->.
  - destruct n as [| |es0]; try discriminate.
    destruct (find_entry nm es0) as [c|] eqn:Hf; [|discriminate].
    rewrite (IH c H). now rewrite (set_entry_same _ _ _ Hf).
Qed.

Lemma obstructed_way (fsys : FileSystem) (d : Path) :
  obstructed fsys d <-> ~ way_clear (resolve fsys d) (root fsys).
Proof.
  unfold obstructed, way_clear. split.
  - intros [k Hk] H. specialize (H k).
    destruct (lookup (firstn k (resolve fsys d)) (root fsys)) as [[| |]|];
      assumption.
  - intros H.
    assert (Hdec : forall k,
      {match lookup (firstn k (resolve fsys d)) (root fsys) with
       | Some File | Some Other => True | _ => False end} +
      {match lookup (firstn k (resolve fsys d)) (root fsys) with
       | Some File | Some Other => False | _ => True end}).
    { intros k.
      destruct (lookup (firstn k (resolve fsys d)) (root fsys)) as [[| |]|];
        auto. }
    (* the prefixes are finitely many *)
    assert (Hfin : forall m,
      (exists k, k < m /\
         match lookup (firstn k (resolve fsys d)) (root fsys) with
         | Some File | Some Other => True | _ => False end) \/
      (forall k, k < m ->
         match lookup (firstn k (resolve fsys d)) (root fsys) with
         | Some File | Some Other => False | _ => True end)).
    { induction m as [|m [(k & Hk & Hb) | Hall]].
      - right. intros k Hk. lia.
      - left. exists k. split; [lia | exact Hb].
      - destruct (Hdec m) as [Hb | Hg].
        + left. exists m. split; [lia | exact Hb].
        + right. intros k Hk. destruct (Nat.eq_dec k m) as [-> | Hne];
            [exact Hg | apply Hall; lia]. }
    destruct (Hfin (S (List.length (resolve fsys d)))) as [(k & _ & Hb) | Hall].
    + now exists k.
    + exfalso. apply H. intros k.
      destruct (Nat.lt_ge_cases k (S (List.length (resolve fsys d)))) as [Hlt | Hge].
      * now apply Hall.
      * rewrite firstn_all2 by lia.
        specialize (Hall (List.length (resolve fsys d)) ltac:(lia)).
        now rewrite firstn_all in Hall.
Qed.

Lemma resolve_prefix (fsys : FileSystem) (d : Path) (k : nat) :
  exists j,
    resolve fsys (mkPath (anchored d) (firstn k (parts d))) =
    firstn j (resolve fsys d).
Proof.
  unfold resolve; simpl.
  exists (List.length (if anchored d then [] else cwd fsys) + k).
  now rewrite firstn_app_2.
Qed.

(** [mkdir(parents=True, exist_ok=True)] with nothing in the way: it
    returns, and the directory and all those above it exist afterwards. *)
Lemma mkdir_clear (fsys : FileSystem) (d : Path) :
  ~ obstructed fsys d ->
  exists fs', mkdir fsys d = Ok fs' /\ cwd fs' = cwd fsys /\
              Forall (fun q => is_dir fs' q = true) (ancestors d).
Proof.
  intros H. unfold mkdir.
  destruct (makedirs_clear (resolve fsys d) (root fsys)) as (r & Hr & Hdirs).
  { unfold way_clear. intros k.
    destruct (lookup (firstn k (resolve fsys d)) (root fsys)) as [[| |]|] eqn:E;
      try exact I; apply H; exists k; now rewrite E. }
  rewrite Hr. exists (mkFS r (cwd fsys)). repeat split.
  unfold ancestors. apply Forall_forall. intros q Hq.
  apply in_map_iff in Hq as (k & <- & _).
  destruct (resolve_prefix fsys d k) as [j Hj].
  unfold is_dir, stat.
  change (resolve (mkFS r (cwd fsys)) (mkPath (anchored d) (firstn k (parts d))))
    with (resolve fsys (mkPath (anchored d) (firstn k (parts d)))).
  rewrite Hj. simpl. destruct (Hdirs j) as [es ->]. reflexivity.
Qed.

(** With something in the way it raises. *)
Lemma mkdir_blocked (fsys : FileSystem) (d : Path) :
  obstructed fsys d -> exists e, mkdir fsys d = Raise e.
Proof.
  intros H. apply obstructed_way in H. unfold mkdir.
  destruct (makedirs_blocked _ _ H) as [e ->]. now exists e.
Qed.

(** On a directory that exists it changes nothing and raises nothing. *)
Lemma mkdir_existing (fsys : FileSystem) (d : Path) :
  is_dir fsys d = true -> mkdir fsys d = Ok fsys.
Proof.
  unfold is_dir, stat, mkdir.
  destruct (lookup (resolve fsys d) (root fsys)) as [[| |es]|] eqn:E;
    try discriminate.
  intros _. rewrite (makedirs_existing _ _ _ E). now destruct fsys.
Qed.

End TreeFacts.

(** ** Facts about discovery *)

Section DiscoveryFacts.

Lemma parts_lt_asym (a b : list string) :
  parts_lt a b = true -> parts_lt b a = false.
Proof.
  revert b; induction a as [|x a IH]; intros [|y b]; simpl;
    try reflexivity; try discriminate.
  rewrite (String.compare_antisym y x).
  destruct (String.compare x y); simpl; try reflexivity; try discriminate.
  apply IH.
Qed.

Lemma In_insert (x y : Path) (l : list Path) :
  In y (insert x l) <-> y = x \/ In y l.
Proof.
  induction l as [|z l IH]; simpl.
  - intuition congruence.
  - destruct (path_lt x z); simpl; rewrite ?IH; intuition congruence.
Qed.

Lemma In_sorted (y : Path) (l : list Path) : In y (sorted l) <-> In y l.
Proof.
  unfold sorted.
  assert (H : forall acc,
             In y (fold_left (fun acc x => insert x acc) l acc)
             <-> In y l \/ In y acc).
  { induction l as [|x l IH]; intros acc; simpl.
    - tauto.
    - rewrite IH, In_insert. intuition congruence. }
  rewrite H. simpl. tauto.
Qed.

Lemma insert_Sorted (x : Path) (l : list Path) :
  Sorted not_after l -> Sorted not_after (insert x l).
Proof.
  induction l as [|y l IH]; intros Hs; simpl.
  - repeat constructor.
  - destruct (path_lt x y) eqn:E.
    + constructor; [assumption|]. constructor.
      unfold not_after. now apply parts_lt_asym.
    + inversion Hs as [|? ? Hs' Hhd]; subst.
      constructor; [now apply IH|].
      destruct l as [|z l]; simpl.
      * now constructor.
      * destruct (path_lt x z); constructor; [exact E|].
        now inversion Hhd.
Qed.

(** [sorted] returns its argument in order. *)
Lemma sorted_Sorted (l : list Path) : Sorted not_after (sorted l).
Proof.
  unfold sorted.
  assert (H : forall acc, Sorted not_after acc ->
             Sorted not_after (fold_left (fun acc x => insert x acc) l acc)).
  { induction l as [|x l IH]; intros acc Hacc; simpl; [assumption|].
    apply IH. now apply insert_Sorted. }
  apply H. constructor.
Qed.

(** What [glob] returns: the entries of the directory whose name matches,
    as children of the path. *)
Lemma In_glob (fsys : FileSystem) (d p : Path) (pat : string) :
  In p (glob fsys d pat) <->
  exists es nm c,
    stat fsys d = Some (Dir es) /\ In (nm, c) es /\
    pystr.fnmatch pat nm = true /\
    p = mkPath (anchored d) (parts d ++ [nm]).
Proof.
  unfold glob. split.
  - destruct (stat fsys d) as [[| |es]|]; simpl; try contradiction.
    intros H. apply in_map_iff in H as ([nm c] & <- & H).
    apply filter_In in H as [Hin Hm]. now exists es, nm, c.
  - intros (es & nm & c & -> & Hin & Hm & ->).
    apply in_map_iff. exists (nm, c). split; [reflexivity|].
    apply filter_In. now split.
Qed.

(** What the recursive walk returns lies below its starting point and has
    a name that matches. *)
Lemma In_walk (pat : string) (n : node) :
  forall pre ps, In ps (walk pat pre n) ->
  exists mid nm, ps = pre ++ mid ++ [nm] /\ pystr.fnmatch pat nm = true.
Proof.
  induction n as [| |es IH] using node_ind_entries; simpl;
    try contradiction.
  intros pre ps H. apply in_flat_map in H as ([nm c] & Hin & H).
  simpl in H. apply in_app_or in H as [H | H].
  - destruct (pystr.fnmatch pat nm) eqn:Hm; [|contradiction].
    destruct H as [<- | []]. now exists [], nm.
  - rewrite Forall_forall in IH. specialize (IH _ Hin _ _ H) as (mid & nm' & -> & Hm).
    exists (nm :: mid), nm'. now rewrite <- app_assoc.
Qed.

(** Every file [find_mp4_files] returns has a name. *)
Lemma find_mp4_files_named (fsys : FileSystem) (target : Path) (rec : bool) :
  Forall (fun p => name p <> EmptyString) (find_mp4_files fsys target rec).
Proof.
  unfold find_mp4_files. destruct (is_file fsys target).
  - destruct (String.eqb_spec (pystr.lower (suffix target)) ".mp4") as [E | _];
      [|constructor].
    apply suffix_lower_mp4 in E as (st & e & Hn & Hst & _).
    repeat constructor. rewrite Hn. destruct st; [contradiction | discriminate].
  - apply Forall_forall. intros p Hp.
    apply In_sorted, filter_In in Hp as [Hp _].
    destruct rec.
    + unfold rglob in Hp. destruct (stat fsys target) as [n|]; [|contradiction].
      apply in_map_iff in Hp as (ps & <- & Hps).
      apply In_walk in Hps as (mid & nm & -> & Hm).
      unfold name; simpl. rewrite app_assoc, last_last.
      now apply fnmatch_mp4_nonempty.
    + apply In_glob in Hp as (es & nm & c & _ & _ & Hm & ->).
      rewrite name_snoc. now apply fnmatch_mp4_nonempty.
Qed.

(** X1.  Discovery in a directory, without recursion: exactly the entries
    of the directory that are regular files and whose name ends in
    [.mp4] as written, in lower case. *)
Lemma find_mp4_files_children (fsys : FileSystem) (d p : Path) :
  is_file fsys d = false ->
  (In p (find_mp4_files fsys d false) <->
   exists es nm c t,
     stat fsys d = Some (Dir es) /\ In (nm, c) es /\
     nm = (t ++ ".mp4")%string /\
     p = mkPath (anchored d) (parts d ++ [nm]) /\
     is_file fsys p = true).
Proof.
  intros Hd. unfold find_mp4_files. rewrite Hd, In_sorted, filter_In, In_glob.
  split.
  - intros [(es & nm & c & Hs & Hin & Hm & ->) Hf].
    apply fnmatch_star_mp4 in Hm as [t ->]. now exists es, (t ++ ".mp4")%string, c, t.
  - intros (es & nm & c & t & Hs & Hin & -> & -> & Hf). split; [|assumption].
    exists es, (t ++ ".mp4")%string, c. repeat split; try assumption.
    apply fnmatch_star_mp4. now exists t.
Qed.

(** Discovery in a directory returns its files in order. *)
Lemma find_mp4_files_Sorted (fsys : FileSystem) (d : Path) (rec : bool) :
  is_file fsys d = false ->
  Sorted not_after (find_mp4_files fsys d rec).
Proof.
  intros Hd. unfold find_mp4_files. rewrite Hd. apply sorted_Sorted.
Qed.

End DiscoveryFacts.

(** ** Discovery and output paths *)

(** C5.  On a target that is a regular file, [find_mp4_files] returns
    that file alone exactly when its extension is [.mp4] in any mix of
    cases, and returns nothing exactly when it is not; the recursion
    flag plays no part. *)
Theorem find_mp4_files_regular_file
        (fsys : FileSystem) (target : Path) (rec : bool) :
  is_file fsys target = true ->
  (find_mp4_files fsys target rec = [target] <-> mp4_extension target) /\
  (find_mp4_files fsys target rec = [] <-> ~ mp4_extension target).
Proof.
  intros Hf. unfold find_mp4_files. rewrite Hf.
  destruct (String.eqb_spec (pystr.lower (suffix target)) ".mp4") as [E | E];
    rewrite suffix_lower_mp4 in E; split; split; intros H;
    solve [assumption | reflexivity | discriminate H | contradiction].
Qed.

Lemma find_mp4_files_regular_file_witness :
  is_file Demo.disk Demo.upper_mp4 = true /\
  find_mp4_files Demo.disk Demo.upper_mp4 false = [Demo.upper_mp4].
Proof.
  split; [reflexivity|].
  apply (find_mp4_files_regular_file Demo.disk Demo.upper_mp4 false eq_refl).
  exists "A", ".MP4". repeat split; [discriminate | simpl; tauto].
Defined.

(** A directory that exists obstructs nothing. *)
Lemma is_dir_clear (fsys : FileSystem) (d : Path) :
  is_dir fsys d = true -> ~ obstructed fsys d.
Proof.
  intros Hd Hob. apply mkdir_blocked in Hob as [e He].
  rewrite (mkdir_existing _ _ Hd) in He. discriminate.
Qed.

(** When [mkdir] returns, nothing was in the way. *)
Lemma mkdir_ok_clear (fsys fs' : FileSystem) (d : Path) :
  mkdir fsys d = Ok fs' -> ~ obstructed fsys d.
Proof.
  intros Hok Hob. apply mkdir_blocked in Hob as [e He].
  rewrite Hok in He. discriminate.
Qed.

Section OutputPath.

Context {Env : Type}.

(** C6, with the condition the script needs.  For an input file [f],
    that is a path with a name:
    without an output directory [build_output_path] returns [f] with its
    suffix replaced by [.mp3] (same directory, same stem), touching
    nothing; with an output directory [d] that nothing but directories
    leads to, it returns [d] joined with the stem of [f] and [.mp3], and
    [d] and every directory above it exist afterwards, whether or not
    they did before; when [d] was a directory already, nothing is raised
    and the world is the same. *)
Theorem build_output_path_spec (f d : Path) (w : @World Env) :
  name f <> EmptyString ->
  ~ obstructed (fs w) d ->
  (exists q,
     build_output_path f None w = (Ok q, w, []) /\
     parent q = parent f /\ stem q = stem f /\ suffix q = ".mp3" /\
     name q = (stem f ++ ".mp3")%string) /\
  (exists q w',
     build_output_path f (Some d) w = (Ok q, w', []) /\
     q = mkPath (anchored d) (parts d ++ [(stem f ++ ".mp3")%string]) /\
     parent q = d /\ suffix q = ".mp3" /\ stem q = stem f /\
     env w' = env w /\
     Forall (fun a => is_dir (fs w') a = true) (ancestors d) /\
     is_dir (fs w') d = true /\
     (is_dir (fs w) d = true -> w' = w)).
Proof.
  intros Hn Hclear. split.
  - unfold build_output_path, lift. rewrite (with_suffix_mp3 _ Hn).
    eexists. split; [reflexivity|].
    now apply with_suffix_mp3_shape, with_suffix_mp3.
  - destruct (mkdir_clear _ _ Hclear) as (fs' & Hmk & Hcwd & Hdirs).
    assert (Hj : joinname d (name f) = mkPath (anchored d) (parts d ++ [name f])).
    { unfold joinname. destruct (String.eqb_spec (name f) ""); [contradiction | reflexivity]. }
    assert (Hjn : name (joinname d (name f)) = name f)
      by (rewrite Hj; apply name_snoc).
    assert (Hjs : stem (joinname d (name f)) = stem f)
      by (unfold stem, suffix; now rewrite Hjn).
    assert (Hq : with_suffix (joinname d (name f)) ".mp3" =
                 Ok (mkPath (anchored d) (parts d ++ [(stem f ++ ".mp3")%string]))).
    { rewrite with_suffix_mp3 by (now rewrite Hjn).
      rewrite Hjs, Hj. simpl. now rewrite removelast_last. }
    destruct (with_suffix_mp3_shape _ _ ltac:(now rewrite Hjn) Hq)
      as (Hpar & Hst & Hsx & _).
    exists (mkPath (anchored d) (parts d ++ [(stem f ++ ".mp3")%string])),
           (mkWorld fs' (env w)).
    repeat split.
    + unfold build_output_path, bind, Path_mkdir, lift.
      now rewrite Hmk, Hq.
    + unfold parent; simpl. rewrite removelast_last. now destruct d.
    + exact Hsx.
    + now rewrite Hst.
    + exact Hdirs.
    + rewrite Forall_forall in Hdirs. apply Hdirs. unfold ancestors.
      apply in_map_iff. exists (List.length (parts d)).
      rewrite firstn_all. split; [now destruct d|].
      apply in_seq. lia.
    + intros Hd. rewrite (mkdir_existing _ _ Hd) in Hmk.
      injection Hmk as <-. now destruct w.
Qed.

End OutputPath.

(** C6, as the claim has it, fails when the output directory names
    something that exists and is no directory: with [videos/notes.txt],
    a regular file, [build_output_path] raises [FileExistsError], and
    the path is no directory afterwards. *)
Lemma build_output_path_on_a_file_raises :
  name Demo.a_mp4 <> EmptyString /\
  exists_ (fs Demo.world) (mkPath false ["videos"; "notes.txt"]) = true /\
  build_output_path Demo.a_mp4 (Some (mkPath false ["videos"; "notes.txt"]))
                    Demo.world
  = (Raise FileExistsError, Demo.world, []) /\
  is_dir (fs (snd (fst (build_output_path
                          Demo.a_mp4
                          (Some (mkPath false ["videos"; "notes.txt"]))
                          Demo.world))))
         (mkPath false ["videos"; "notes.txt"])
  = false.
Proof.
  split; [discriminate|]. repeat split.
Qed.

Lemma build_output_path_spec_witness :
  name Demo.a_mp4 <> EmptyString /\
  ~ obstructed (fs Demo.world) Demo.out /\
  exists q w',
    build_output_path Demo.a_mp4 (Some Demo.out) Demo.world = (Ok q, w', []) /\
    str q = "out/audio/a.mp3" /\
    is_dir (fs w') Demo.out = true.
Proof.
  assert (Hn : name Demo.a_mp4 <> EmptyString) by discriminate.
  assert (Hc : ~ obstructed (fs Demo.world) Demo.out).
  { eapply mkdir_ok_clear. vm_compute. reflexivity. }
  split; [exact Hn|]. split; [exact Hc|].
  destruct (build_output_path_spec Demo.a_mp4 Demo.out Demo.world Hn Hc)
    as [_ (q & w' & Hq & -> & _ & _ & _ & _ & _ & Hd & _)].
  eexists; exists w'. split; [exact Hq|]. split; [reflexivity | exact Hd].
Defined.

(** ** The script *)

Section ScriptFacts.

Context {Env : Type}.
Variable shutil_which : string -> @World Env -> option string.
Variable subprocess_run : list string -> @World Env -> completion * @World Env.

(** [build_output_path] prints nothing and starts nothing. *)
Lemma build_output_path_silent (src : Path) (out : option Path) (w w1 : @World Env)
      (r : res Path) (l : list event) :
  build_output_path src out w = (r, w1, l) -> l = [].
Proof.
  unfold build_output_path, bind, Path_mkdir, lift. destruct out as [d|].
  - destruct (mkdir (fs w) d); intros [= _ _ <-]; reflexivity.
  - intros [= _ _ <-]; reflexivity.
Qed.

(** It raises no [SystemExit]. *)
Lemma build_output_path_raises (src : Path) (out : option Path) (w w1 : @World Env)
      (e : exn) (l : list event) :
  build_output_path src out w = (Raise e, w1, l) ->
  forall code, e <> SystemExit code.
Proof.
  assert (Hws : forall p e, with_suffix p ".mp3" = Raise e -> e = ValueError).
  { intros p e'. unfold with_suffix. simpl.
    destruct (String.eqb (name p) ""); [now intros [= <-] | discriminate]. }
  assert (Hmd : forall ps n e, makedirs ps n = Raise e ->
                               e = FileExistsError \/ e = NotADirectoryError).
  { induction ps as [|nm rest IH]; intros n e'; simpl.
    - destruct n as [[| |]|]; try discriminate; intros [= <-]; auto.
    - destruct n as [[| |es]|]; try (intros [= <-]; now auto).
      + destruct (makedirs rest (find_entry nm es)) eqn:E; [discriminate|].
        intros [= <-]. eapply IH, E.
      + destruct (makedirs rest None) eqn:E; [discriminate|].
        intros [= <-]. eapply IH, E. }
  unfold build_output_path, bind, Path_mkdir, lift, mkdir.
  destruct out as [d|].
  - destruct (makedirs (resolve (fs w) d) (Some (root (fs w)))) eqn:E.
    + destruct (with_suffix (joinname d (name src)) ".mp3") eqn:E2;
        [discriminate|].
      intros [= <- _ _] code. apply Hws in E2 as ->. discriminate.
    + intros [= <- _ _] code. apply Hmd in E as [-> | ->]; discriminate.
  - destruct (with_suffix src ".mp3") eqn:E2; [discriminate|].
    intros [= <- _ _] code. apply Hws in E2 as ->. discriminate.
Qed.

(** C7.  [convert_one] starts one program, with this argument vector, in
    this order: [ffmpeg], the flags that silence the banner and all
    logging below errors, [-y] when overwriting and [-n] when not, [-i]
    and the input path, [-vn], [-acodec libmp3lame], [-b:a] and the
    bitrate as given, and last the output path.  It returns the return
    code of the child, or 127, after a line on the error stream, when
    the program could not be started. *)
Theorem convert_one_argument_list
        (input_path output_path : Path) (rate : string) (force : bool)
        (w : @World Env) :
  let cmd := [ "ffmpeg"; "-hide_banner"; "-loglevel"; "error";
               if force then "-y" else "-n";
               "-i"; str input_path;
               "-vn"; "-acodec"; "libmp3lame";
               "-b:a"; rate;
               str output_path ] in
  let c := fst (subprocess_run cmd w) in
  let w' := snd (subprocess_run cmd w) in
  convert_one subprocess_run input_path output_path rate force w =
  (Ok (returncode c), w',
   Exec cmd c ::
     match c with
     | NoSuchProgram =>
         [Stderr "ffmpeg 실행 파일을 찾을 수 없습니다. 설치를 확인하세요."]
     | Returned _ => []
     end).
Proof.
  unfold convert_one, ffmpeg_cmd. cbv zeta.
  destruct (subprocess_run _ w) as [[code|] w']; reflexivity.
Qed.

(** [convert_one] always returns, and starts exactly one program. *)
Lemma convert_one_returns (src dst : Path) (rate : string) (force : bool)
      (w : @World Env) :
  exists code w' l,
    convert_one subprocess_run src dst rate force w = (Ok code, w', l) /\
    List.length (execs l) = 1.
Proof.
  unfold convert_one.
  destruct (subprocess_run _ w) as [[code|] w']; repeat eexists.
Qed.

(** [main], one decision after the other. *)
Lemma main_unfold (args : Namespace) (w : @World Env) :
  main shutil_which subprocess_run args w =
  match shutil_which "ffmpeg" w with
  | None =>
      (Raise (SystemExit 127), w, [Which "ffmpeg"; Stderr ffmpeg_missing_message])
  | Some _ =>
      if exists_ (fs w) (input args) then
        match find_mp4_files (fs w) (input args) (recursive args) with
        | [] => (Ok 1%Z, w, [Which "ffmpeg"; Stderr nothing_line])
        | inputs =>
            let total := Z.of_nat (List.length inputs) in
            match for_each subprocess_run args total 1 inputs 0 w with
            | (Ok failures, w', l) =>
                if (failures =? 0)%Z then
                  (Ok 0%Z, w', Which "ffmpeg" :: l ++ [Stdout (summary_ok_line total)])
                else
                  (Ok 1%Z, w',
                   Which "ffmpeg" :: l ++ [Stdout (summary_failed_line total failures)])
            | (Raise e, w', l) => (Raise e, w', Which "ffmpeg" :: l)
            end
        end
      else
        (Ok 2%Z, w, [Which "ffmpeg"; Stderr (not_found_line (input args))])
  end.
Proof.
  unfold main, ensure_ffmpeg_available, which, raise, Path_exists,
    reads, eprint, print, emit, ret.
  unfold bind.
  destruct (shutil_which "ffmpeg" w); [|reflexivity].
  destruct (exists_ (fs w) (input args)); [|reflexivity].
  cbv beta iota delta [negb].
  destruct (find_mp4_files (fs w) (input args) (recursive args)) as [|p ps];
    [reflexivity|].
  cbv zeta.
  destruct (for_each subprocess_run args (Z.of_nat (List.length (p :: ps))) 1
                     (p :: ps) 0 w) as [[[f|e] w'] l]; [|reflexivity].
  destruct (f =? 0)%Z; reflexivity.
Qed.

(** One turn of the loop, by the class of the code [convert_one] returns:
    the counter moves for a failure only, a skip and a failure print their
    line after what the conversion logged, and the turn returns in all
    three. *)
Lemma loop_body_unfold (args : Namespace) (total idx : Z) (src : Path)
      (failures : Z) (w : @World Env) :
  loop_body subprocess_run args total idx src failures w =
  match build_output_path src (output_dir args) w with
  | (Raise e, w1, l0) => (Raise e, w1, l0)
  | (Ok dst, w1, l0) =>
      match convert_one subprocess_run src dst (bitrate args) (overwrite args) w1 with
      | (Raise e, w2, l) =>
          (Raise e, w2, l0 ++ Stdout (progress_line idx total src dst) :: l)
      | (Ok code, w2, l) =>
          let before := l0 ++ Stdout (progress_line idx total src dst) :: l in
          match classify code (overwrite args) (exists_ (fs w2) dst) with
          | Success => (Ok failures, w2, before)
          | SkippedExisting =>
              (Ok failures, w2, before ++ [Stdout (skip_line dst)])
          | Failed c =>
              (Ok (failures + 1)%Z, w2, before ++ [Stderr (failure_line c src)])
          end
      end
  end.
Proof.
  unfold loop_body, bind at 1.
  destruct (build_output_path src (output_dir args) w) as [[[dst|e] w1] l0];
    [|reflexivity].
  unfold bind at 1, print at 1, emit at 1. unfold bind at 1.
  destruct (convert_one subprocess_run src dst (bitrate args) (overwrite args) w1)
    as [[[code|e] w2] l]; [|reflexivity].
  unfold classify, bind, Path_exists, reads, print, eprint, emit, ret.
  cbv zeta.
  destruct (code =? 0)%Z.
  - simpl. now rewrite app_nil_r.
  - destruct (code =? 1)%Z; destruct (overwrite args); cbn [andb negb];
      try destruct (exists_ (fs w2) dst); simpl;
      rewrite <- ?app_assoc; simpl; rewrite <- ?app_assoc; reflexivity.
Qed.

(** The loop over a list that is not empty is one turn, then the loop
    over the rest from the counter and the world the turn left. *)
Lemma for_each_cons (args : Namespace) (total idx : Z) (src : Path)
      (rest : list Path) (failures : Z) (w : @World Env) :
  for_each subprocess_run args total idx (src :: rest) failures w =
  match loop_body subprocess_run args total idx src failures w with
  | (Ok failures', w1, l1) =>
      match for_each subprocess_run args total (idx + 1) rest failures' w1 with
      | (r, w2, l2) => (r, w2, l1 ++ l2)
      end
  | (Raise e, w1, l1) => (Raise e, w1, l1)
  end.
Proof. reflexivity. Qed.

Lemma execs_app (a b : list event) : execs (a ++ b) = execs a ++ execs b.
Proof. apply filter_app. Qed.

(** The two ways [convert_one] returns. *)
Lemma convert_one_cases (src dst : Path) (rate : string) (force : bool)
      (w w' : @World Env) (code : Z) (l : list event) :
  convert_one subprocess_run src dst rate force w = (Ok code, w', l) ->
  l = [Exec (ffmpeg_cmd src dst rate force) (Returned code)] \/
  (code = 127%Z /\
   l = [Exec (ffmpeg_cmd src dst rate force) NoSuchProgram;
        Stderr ffmpeg_not_found_message]).
Proof.
  unfold convert_one.
  destruct (subprocess_run _ w) as [[c|] w1]; intros [= <- _ <-]; auto.
Qed.

(** C1.  One turn of the batch, for a candidate whose output path was
    built and whose conversion returned [code]: with code 0 the turn ends
    with the counter as it was and nothing more printed; with code 1, no
    overwrite flag and the output on disk it prints the skip notice,
    which names the output, on the standard output and leaves the
    counter as it was; with any other code it adds one to the counter
    and prints the failure notice, which gives the code in decimal and
    the source, on the error stream.  In all three the turn returns, and
    the batch goes on with the next candidate from the world the tool
    left. *)
Theorem loop_body_classifies
        (args : Namespace) (total idx : Z) (src : Path) (rest : list Path)
        (failures : Z) (w w1 w2 : @World Env) (dst : Path) (code : Z)
        (l0 l : list event) :
  build_output_path src (output_dir args) w = (Ok dst, w1, l0) ->
  convert_one subprocess_run src dst (bitrate args) (overwrite args) w1
  = (Ok code, w2, l) ->
  let before :=
    l0 ++ Stdout ("[" ++ pystr.of_int idx ++ "/" ++ pystr.of_int total
                      ++ "] 변환 중: " ++ str src ++ " -> " ++ str dst) :: l in
  let skip := code = 1%Z /\ overwrite args = false /\ exists_ (fs w2) dst = true in
  exists failures' lb,
    loop_body subprocess_run args total idx src failures w = (Ok failures', w2, lb) /\
    (code = 0%Z -> failures' = failures /\ lb = before) /\
    (skip ->
     failures' = failures /\
     lb = before
          ++ [Stdout ("스킵: 출력 파일이 이미 존재합니다 (덮어쓰지 않음): "
                      ++ str dst)]) /\
    (code <> 0%Z -> ~ skip ->
     failures' = (failures + 1)%Z /\
     lb = before
          ++ [Stderr ("실패 (코드 " ++ pystr.of_int code ++ "): " ++ str src)]) /\
    for_each subprocess_run args total idx (src :: rest) failures w =
    (let '(r, w', lr) :=
       for_each subprocess_run args total (idx + 1) rest failures' w2 in
     (r, w', lb ++ lr)).
Proof.
  intros Hb Hc before skip.
  assert (Hbody := loop_body_unfold args total idx src failures w).
  rewrite Hb, Hc in Hbody. cbv zeta in Hbody.
  change (l0 ++ Stdout (progress_line idx total src dst) :: l)
    with before in Hbody.
  assert (Hloop := for_each_cons args total idx src rest failures w).
  unfold classify in Hbody.
  destruct (Z.eqb_spec code 0) as [E0 | E0].
  - rewrite Hbody in Hloop. exists failures, before.
    split; [exact Hbody|]. split; [auto|].
    split; [intros (E1 & _); lia|].
    split; [intros Hne; contradiction|]. exact Hloop.
  - destruct (Z.eqb_spec code 1) as [E1 | E1];
      destruct (overwrite args) eqn:Ef;
      destruct (exists_ (fs w2) dst) eqn:Ex; cbn [andb negb] in Hbody;
      rewrite Hbody in Hloop;
      try (exists (failures + 1)%Z, (before ++ [Stderr (failure_line code src)]);
           split; [exact Hbody|]; split; [intros; contradiction|];
           split; [intros (H1 & H2 & H3); congruence|];
           split; [intros _ _; split; reflexivity | exact Hloop]).
    exists failures, (before ++ [Stdout (skip_line dst)]).
    split; [exact Hbody|]. split; [intros; contradiction|].
    split; [intros _; split; reflexivity|].
    split; [intros _ Hns; exfalso; apply Hns; unfold skip; auto|].
    exact Hloop.
Qed.

(** The counter only grows, by as many as the outcomes that are
    failures; when the loop returns it got through every candidate and
    started one program for each. *)
Lemma for_each_counts (args : Namespace) (total : Z) (inputs : list Path) :
  forall idx failures (w w' : @World Env) failures' l,
    for_each subprocess_run args total idx inputs failures w
    = (Ok failures', w', l) ->
    failures' =
    (failures
     + Z.of_nat (List.length
                   (filter is_failed (outcomes subprocess_run args inputs w))))%Z /\
    List.length (outcomes subprocess_run args inputs w) = List.length inputs /\
    List.length (execs l) = List.length inputs.
Proof.
  induction inputs as [|src rest IH]; intros idx failures w w' failures' l.
  - simpl. unfold ret. intros [= <- _ <-]. simpl. split; [lia | auto].
  - rewrite for_each_cons, loop_body_unfold. cbn [outcomes].
    destruct (build_output_path src (output_dir args) w) as [[[dst|e] w1] l0] eqn:Hb;
      [|discriminate].
    apply build_output_path_silent in Hb as ->.
    destruct (convert_one_returns src dst (bitrate args) (overwrite args) w1)
      as (code & w2 & lc & Hc & Hexec).
    rewrite Hc. cbv zeta.
    destruct (classify code (overwrite args) (exists_ (fs w2) dst)) eqn:Hk;
      destruct (for_each subprocess_run args total (idx + 1) rest _ w2)
        as [[r w3] l2] eqn:Hrest;
      intros [= -> <- <-];
      destruct (IH _ _ _ _ _ _ Hrest) as (Hf & Hlen & Hex);
      unfold execs in *;
      cbn [filter is_failed is_exec List.length app];
      rewrite ?filter_app, ?length_app;
      cbn [filter is_exec List.length app];
      rewrite ?Hexec, ?Hex, ?Hlen;
      (split; [lia | split; lia]).
Qed.

(** It raises no [SystemExit]. *)
Lemma for_each_raises (args : Namespace) (total : Z) (inputs : list Path) :
  forall idx failures (w w' : @World Env) e l,
    for_each subprocess_run args total idx inputs failures w = (Raise e, w', l) ->
    forall code, e <> SystemExit code.
Proof.
  induction inputs as [|src rest IH]; intros idx failures w w' e l.
  - discriminate.
  - rewrite for_each_cons, loop_body_unfold.
    destruct (build_output_path src (output_dir args) w) as [[[dst|e0] w1] l0] eqn:Hb.
    + destruct (convert_one_returns src dst (bitrate args) (overwrite args) w1)
        as (code & w2 & lc & Hc & _).
      rewrite Hc. cbv zeta.
      destruct (classify code (overwrite args) (exists_ (fs w2) dst));
        destruct (for_each subprocess_run args total (idx + 1) rest _ w2)
          as [[r w3] l2] eqn:Hrest;
        intros [= -> _ _]; eapply IH, Hrest.
    + intros [= <- _ _]. eapply build_output_path_raises, Hb.
Qed.

(** When the outcomes are as many as the candidates, the loop returned. *)
Lemma for_each_returns (args : Namespace) (total : Z) (inputs : list Path) :
  forall idx failures (w : @World Env),
    List.length (outcomes subprocess_run args inputs w) = List.length inputs ->
    exists failures' w' l,
      for_each subprocess_run args total idx inputs failures w
      = (Ok failures', w', l).
Proof.
  induction inputs as [|src rest IH]; intros idx failures w.
  - intros _. now exists failures, w, [].
  - rewrite for_each_cons, loop_body_unfold. cbn [outcomes].
    destruct (build_output_path src (output_dir args) w) as [[[dst|e] w1] l0] eqn:Hb;
      [|discriminate].
    destruct (convert_one_returns src dst (bitrate args) (overwrite args) w1)
      as (code & w2 & lc & Hc & _).
    rewrite Hc. cbv zeta. cbn [List.length]. intros [= Hlen].
    destruct (classify code (overwrite args) (exists_ (fs w2) dst));
      match goal with
      | |- context [for_each subprocess_run args total (idx + 1) rest ?f w2] =>
          destruct (IH (idx + 1)%Z f w2 Hlen) as (f' & w' & l' & ->)
      end; repeat eexists.
Qed.

(** The counter never passes the number of candidates. *)
Lemma for_each_bounds (args : Namespace) (total : Z) (inputs : list Path)
      (idx failures : Z) (w w' : @World Env) (failures' : Z) (l : list event) :
  for_each subprocess_run args total idx inputs failures w
  = (Ok failures', w', l) ->
  (failures <= failures' <= failures + Z.of_nat (List.length inputs))%Z.
Proof.
  intros H. apply for_each_counts in H as (-> & Hlen & _).
  pose proof (filter_length_le is_failed (outcomes subprocess_run args inputs w)).
  lia.
Qed.

(** C2.  For a batch that is not empty and that the loop got through
    with [failures] failures: the counter lies between 0 and the number
    of candidates; when it is positive [main] prints the summary with
    the numbers of successes, [total - failures], and of failures, and
    returns 1; when it is 0, every file having been converted or
    skipped, [main] prints the summary of success and returns 0. *)
Theorem main_summary
        (args : Namespace) (w w' : @World Env) (inputs : list Path)
        (failures : Z) (l : list event) :
  shutil_which "ffmpeg" w <> None ->
  exists_ (fs w) (input args) = true ->
  find_mp4_files (fs w) (input args) (recursive args) = inputs ->
  inputs <> [] ->
  for_each subprocess_run args (Z.of_nat (List.length inputs)) 1 inputs 0 w
  = (Ok failures, w', l) ->
  let total := Z.of_nat (List.length inputs) in
  (0 <= failures <= total)%Z /\
  ((0 < failures)%Z ->
   main shutil_which subprocess_run args w =
   (Ok 1%Z, w',
    Which "ffmpeg" :: l ++
      [Stdout ("완료: 성공 " ++ pystr.of_int (total - failures)
                ++ " / 실패 " ++ pystr.of_int failures)])) /\
  (failures = 0%Z ->
   main shutil_which subprocess_run args w =
   (Ok 0%Z, w',
    Which "ffmpeg" :: l ++
      [Stdout ("완료: 총 " ++ pystr.of_int total ++ "개 파일 변환 성공")])).
Proof.
  intros Hw Hex Hfind Hne Hloop total.
  pose proof (for_each_bounds _ _ _ _ _ _ _ _ _ Hloop) as Hb.
  split; [fold total in Hb; lia|].
  rewrite main_unfold, Hex, Hfind.
  destruct (shutil_which "ffmpeg" w); [|contradiction].
  destruct inputs as [|p ps]; [contradiction|].
  cbv zeta. rewrite Hloop.
  split; intros Hf.
  - destruct (Z.eqb_spec failures 0); [lia | reflexivity].
  - subst failures. reflexivity.
Qed.

(** C8.  When the tool is installed, the input exists and discovery finds
    nothing, [main] says on the error stream that there is nothing to
    convert and returns 1, the world untouched and no program started. *)
Theorem main_nothing_to_convert (args : Namespace) (w : @World Env) :
  shutil_which "ffmpeg" w <> None ->
  exists_ (fs w) (input args) = true ->
  find_mp4_files (fs w) (input args) (recursive args) = [] ->
  main shutil_which subprocess_run args w =
  (Ok 1%Z, w, [Which "ffmpeg"; Stderr "변환할 MP4 파일을 찾지 못했습니다."]) /\
  fst (fst (run shutil_which subprocess_run args w)) = 1%Z /\
  execs (snd (main shutil_which subprocess_run args w)) = [].
Proof.
  intros Hw Hex Hfind. unfold run. rewrite main_unfold, Hex, Hfind.
  destruct (shutil_which "ffmpeg" w); [|contradiction].
  repeat split.
Qed.

(** C9.  When the input path does not exist: the first thing the run
    does is the look-up of the tool; no program is started and the world
    is untouched; with the tool installed, [main] names the missing path
    on the error stream and returns 2; without it the run ends in the
    look-up, with the installation notice and status 127. *)
Theorem main_missing_input (args : Namespace) (w : @World Env) :
  exists_ (fs w) (input args) = false ->
  let '(r, w', l) := main shutil_which subprocess_run args w in
  hd_error l = Some (Which "ffmpeg") /\
  execs l = [] /\
  w' = w /\
  (shutil_which "ffmpeg" w <> None ->
   r = Ok 2%Z /\
   l = [Which "ffmpeg";
        Stderr ("입력 경로를 찾을 수 없습니다: " ++ str (input args))]) /\
  (shutil_which "ffmpeg" w = None ->
   r = Raise (SystemExit 127) /\
   l = [Which "ffmpeg"; Stderr ffmpeg_missing_message]).
Proof.
  intros Hex. rewrite main_unfold, Hex.
  destruct (shutil_which "ffmpeg" w) as [where_|].
  - do 3 (split; [reflexivity|]).
    split; [intros _; split; reflexivity | intros H; discriminate H].
  - do 3 (split; [reflexivity|]).
    split; [intros H; now contradiction H | intros _; split; reflexivity].
Qed.




Lemma no_failed_filter (os : list ConversionOutcome) :
  (forall code, ~ In (Failed code) os) -> filter is_failed os = [].
Proof.
  induction os as [|o os IH]; intros H; [reflexivity|].
  destruct o as [| |code]; simpl.
  - apply IH. intros code Hin. apply (H code). now right.
  - apply IH. intros code Hin. apply (H code). now right.
  - exfalso. apply (H code). now left.
Qed.


(** C4, as the script has it.  A run that gets through all its
    candidates, with at least one of them skipped because its output
    exists and none failed, exits with status 0: a skip is not counted
    as a failure. *)
Theorem skips_are_not_failures (args : Namespace) (w : @World Env) :
  shutil_which "ffmpeg" w <> None ->
  exists_ (fs w) (input args) = true ->
  List.length
    (outcomes subprocess_run args
              (find_mp4_files (fs w) (input args) (recursive args)) w)
  = List.length (find_mp4_files (fs w) (input args) (recursive args)) ->
  In SkippedExisting
     (outcomes subprocess_run args
               (find_mp4_files (fs w) (input args) (recursive args)) w) ->
  (forall code,
      ~ In (Failed code)
           (outcomes subprocess_run args
                     (find_mp4_files (fs w) (input args) (recursive args)) w)) ->
  fst (fst (run shutil_which subprocess_run args w)) = 0%Z.
Proof.
  intros Hw Hex Hlen Hskip Hnofail. unfold run. rewrite main_unfold, Hex.
  destruct (shutil_which "ffmpeg" w); [|contradiction].
  destruct (find_mp4_files (fs w) (input args) (recursive args)) as [|p ps];
    [contradiction|].
  cbv zeta.
  destruct (for_each_returns args (Z.of_nat (List.length (p :: ps))) (p :: ps)
                             1%Z 0%Z w Hlen) as (f & w' & l & Hloop).
  rewrite Hloop.
  apply for_each_counts in Hloop as (Hf & _ & _).
  rewrite (no_failed_filter _ Hnofail) in Hf. simpl in Hf. subst f.
  reflexivity.
Qed.


End ScriptFacts.

(** ** The script at work *)

(** C3.  Discovery in a directory matches the pattern [*.mp4] as it is
    written: in [/home/videos], which holds [a.mp4], [b.mp4] and [A.MP4],
    all three regular files with the extension of the input type, it
    returns the two in lower case, in order, and not [A.MP4], with and
    without recursion; given [A.MP4] itself as the target it returns
    it. *)
Theorem find_mp4_files_misses_upper_case :
  is_dir Demo.disk Demo.videos = true /\
  is_file Demo.disk Demo.upper_mp4 = true /\
  mp4_extension Demo.upper_mp4 /\
  find_mp4_files Demo.disk Demo.videos false = [Demo.a_mp4; Demo.b_mp4] /\
  find_mp4_files Demo.disk Demo.videos true
  = [Demo.a_mp4; Demo.b_mp4; Demo.c_mp4] /\
  ~ In Demo.upper_mp4 (find_mp4_files Demo.disk Demo.videos false) /\
  find_mp4_files Demo.disk Demo.upper_mp4 false = [Demo.upper_mp4].
Proof.
  split; [reflexivity|]. split; [reflexivity|].
  split; [exists "A", ".MP4"; repeat split; [discriminate | simpl; tauto]|].
  split; [reflexivity|]. split; [reflexivity|]. split; [|reflexivity].
  intros [H | [H | []]]; discriminate H.
Qed.

Lemma loop_body_classifies_witness :
  loop_body (Demo.returns 1) Demo.args_dir 2 1 Demo.a_mp4 0 Demo.world
  = (Ok 1%Z, Demo.world,
     [ Stdout "[1/2] 변환 중: videos/a.mp4 -> videos/a.mp3";
       Exec (ffmpeg_cmd Demo.a_mp4 Demo.a_mp3 "192k" false) (Returned 1);
       Stderr "실패 (코드 1): videos/a.mp4" ]) /\
  loop_body (Demo.returns 1) Demo.args_dir 2 2 Demo.b_mp4 1 Demo.world
  = (Ok 1%Z, Demo.world,
     [ Stdout "[2/2] 변환 중: videos/b.mp4 -> videos/b.mp3";
       Exec (ffmpeg_cmd Demo.b_mp4 Demo.b_mp3 "192k" false) (Returned 1);
       Stdout "스킵: 출력 파일이 이미 존재합니다 (덮어쓰지 않음): videos/b.mp3" ]) /\
  loop_body (Demo.returns (-9)) Demo.args_dir 2 2 Demo.b_mp4 1 Demo.world
  = (Ok 2%Z, Demo.world,
     [ Stdout "[2/2] 변환 중: videos/b.mp4 -> videos/b.mp3";
       Exec (ffmpeg_cmd Demo.b_mp4 Demo.b_mp3 "192k" false) (Returned (-9));
       Stderr "실패 (코드 -9): videos/b.mp4" ]).
Proof.
  split; [|split].
  - destruct (loop_body_classifies (Demo.returns 1) Demo.args_dir 2 1 Demo.a_mp4
                [] 0 Demo.world Demo.world Demo.world Demo.a_mp3 1 []
                [Exec (ffmpeg_cmd Demo.a_mp4 Demo.a_mp3 "192k" false) (Returned 1)]
                eq_refl eq_refl)
      as (f' & lb & Hbody & _ & _ & Hfail & _).
    destruct Hfail as [-> ->];
      [discriminate | intros (_ & _ & H); discriminate H | exact Hbody].
  - destruct (loop_body_classifies (Demo.returns 1) Demo.args_dir 2 2 Demo.b_mp4
                [] 1 Demo.world Demo.world Demo.world Demo.b_mp3 1 []
                [Exec (ffmpeg_cmd Demo.b_mp4 Demo.b_mp3 "192k" false) (Returned 1)]
                eq_refl eq_refl)
      as (f' & lb & Hbody & _ & Hskip & _).
    destruct Hskip as [-> ->]; [repeat split | exact Hbody].
  - destruct (loop_body_classifies (Demo.returns (-9)) Demo.args_dir 2 2
                Demo.b_mp4 [] 1 Demo.world Demo.world Demo.world Demo.b_mp3
                (-9) []
                [Exec (ffmpeg_cmd Demo.b_mp4 Demo.b_mp3 "192k" false)
                      (Returned (-9))]
                eq_refl eq_refl)
      as (f' & lb & Hbody & _ & _ & Hfail & _).
    destruct Hfail as [-> ->];
      [discriminate | intros (H & _); discriminate H | exact Hbody].
Defined.

Lemma main_summary_witness :
  main Demo.installed (Demo.returns 1) Demo.args_dir Demo.world
  = (Ok 1%Z, Demo.world,
     [ Which "ffmpeg";
       Stdout "[1/2] 변환 중: videos/a.mp4 -> videos/a.mp3";
       Exec (ffmpeg_cmd Demo.a_mp4 Demo.a_mp3 "192k" false) (Returned 1);
       Stderr "실패 (코드 1): videos/a.mp4";
       Stdout "[2/2] 변환 중: videos/b.mp4 -> videos/b.mp3";
       Exec (ffmpeg_cmd Demo.b_mp4 Demo.b_mp3 "192k" false) (Returned 1);
       Stdout "스킵: 출력 파일이 이미 존재합니다 (덮어쓰지 않음): videos/b.mp3";
       Stdout "완료: 성공 1 / 실패 1" ]) /\
  main Demo.installed (Demo.returns 0) Demo.args_dir Demo.world
  = (Ok 0%Z, Demo.world,
     [ Which "ffmpeg";
       Stdout "[1/2] 변환 중: videos/a.mp4 -> videos/a.mp3";
       Exec (ffmpeg_cmd Demo.a_mp4 Demo.a_mp3 "192k" false) (Returned 0);
       Stdout "[2/2] 변환 중: videos/b.mp4 -> videos/b.mp3";
       Exec (ffmpeg_cmd Demo.b_mp4 Demo.b_mp3 "192k" false) (Returned 0);
       Stdout "완료: 총 2개 파일 변환 성공" ]).
Proof.
  split.
  - destruct (main_summary Demo.installed (Demo.returns 1) Demo.args_dir
                Demo.world Demo.world [Demo.a_mp4; Demo.b_mp4] 1
                [ Stdout "[1/2] 변환 중: videos/a.mp4 -> videos/a.mp3";
                  Exec (ffmpeg_cmd Demo.a_mp4 Demo.a_mp3 "192k" false) (Returned 1);
                  Stderr "실패 (코드 1): videos/a.mp4";
                  Stdout "[2/2] 변환 중: videos/b.mp4 -> videos/b.mp3";
                  Exec (ffmpeg_cmd Demo.b_mp4 Demo.b_mp3 "192k" false) (Returned 1);
                  Stdout "스킵: 출력 파일이 이미 존재합니다 (덮어쓰지 않음): videos/b.mp3" ])
      as (_ & Hfail & _);
      [discriminate | reflexivity | reflexivity | discriminate | reflexivity |].
    apply Hfail. reflexivity.
  - destruct (main_summary Demo.installed (Demo.returns 0) Demo.args_dir
                Demo.world Demo.world [Demo.a_mp4; Demo.b_mp4] 0
                [ Stdout "[1/2] 변환 중: videos/a.mp4 -> videos/a.mp3";
                  Exec (ffmpeg_cmd Demo.a_mp4 Demo.a_mp3 "192k" false) (Returned 0);
                  Stdout "[2/2] 변환 중: videos/b.mp4 -> videos/b.mp3";
                  Exec (ffmpeg_cmd Demo.b_mp4 Demo.b_mp3 "192k" false) (Returned 0) ])
      as (_ & _ & Hok);
      [discriminate | reflexivity | reflexivity | discriminate | reflexivity |].
    apply Hok. reflexivity.
Defined.

(** C4, as the claim has it, fails: with [b.mp3] on disk, no overwrite
    flag and a tool that returns 1, the one candidate [b.mp4] is skipped,
    none fails, and the run exits with status 0, not 1. *)
Lemma skipped_run_exits_with_0 :
  outcomes (Demo.returns 1) Demo.args_b
           (find_mp4_files (fs Demo.world) (input Demo.args_b)
                           (recursive Demo.args_b))
           Demo.world
  = [SkippedExisting] /\
  fst (fst (run Demo.installed (Demo.returns 1) Demo.args_b Demo.world)) = 0%Z /\
  fst (fst (run Demo.installed (Demo.returns 1) Demo.args_b Demo.world)) <> 1%Z.
Proof.
  split; [reflexivity|]. split; [reflexivity | discriminate].
Qed.

Lemma skips_are_not_failures_witness :
  fst (fst (run Demo.installed (Demo.returns 1) Demo.args_b Demo.world)) = 0%Z.
Proof.
  apply (skips_are_not_failures Demo.installed (Demo.returns 1) Demo.args_b
                                Demo.world).
  - discriminate.
  - reflexivity.
  - reflexivity.
  - vm_compute. left. reflexivity.
  - vm_compute. intros code [H | []]. discriminate H.
Defined.

Lemma main_nothing_to_convert_witness :
  main Demo.installed (Demo.returns 0) Demo.args_empty Demo.world
  = (Ok 1%Z, Demo.world, [Which "ffmpeg"; Stderr nothing_line]).
Proof.
  apply (main_nothing_to_convert Demo.installed (Demo.returns 0)
                                 Demo.args_empty Demo.world).
  - discriminate.
  - reflexivity.
  - reflexivity.
Defined.

Lemma main_missing_input_witness :
  exists_ (fs Demo.world) (input Demo.args_missing) = false /\
  main Demo.installed (Demo.returns 0) Demo.args_missing Demo.world
  = (Ok 2%Z, Demo.world,
     [Which "ffmpeg"; Stderr (not_found_line (input Demo.args_missing))]).
Proof.
  split; [reflexivity|].
  pose proof (main_missing_input Demo.installed (Demo.returns 0)
                                 Demo.args_missing Demo.world eq_refl) as H.
  destruct (main Demo.installed (Demo.returns 0) Demo.args_missing Demo.world)
    as [[r w'] l].
  destruct H as (_ & _ & -> & Hok & _).
  destruct Hok as [-> ->]; [discriminate | reflexivity].
Defined.


(** ** More about discovery *)

Lemma find_mp4_files_children_witness :
  is_file Demo.disk Demo.videos = false /\
  In Demo.a_mp4 (find_mp4_files Demo.disk Demo.videos false).
Proof.
  split; [reflexivity|].
  apply (find_mp4_files_children Demo.disk Demo.videos Demo.a_mp4 eq_refl).
  eexists. exists "a.mp4", File, "a".
  split; [reflexivity|]. split; [|repeat split].
  simpl. tauto.
Defined.

Lemma insert_Permutation (x : Path) (l : list Path) :
  Permutation (insert x l) (x :: l).
Proof.
  induction l as [|y l IH]; simpl; [reflexivity|].
  destruct (path_lt x y); [reflexivity|].
  rewrite IH. apply perm_swap.
Qed.

Lemma sorted_Permutation (l : list Path) : Permutation (sorted l) l.
Proof.
  unfold sorted.
  assert (H : forall acc,
             Permutation (fold_left (fun acc x => insert x acc) l acc)
                         (l ++ acc)).
  { induction l as [|x l IH]; intros acc; simpl; [reflexivity|].
    rewrite IH, insert_Permutation. symmetry. apply Permutation_middle. }
  rewrite H. now rewrite app_nil_r.
Qed.

Lemma ascii_compare_lt_trans (a b c : ascii) :
  Ascii.compare a b = Lt -> Ascii.compare b c = Lt -> Ascii.compare a c = Lt.
Proof.
  unfold Ascii.compare. rewrite !N.compare_lt_iff. apply N.lt_trans.
Qed.

Lemma string_compare_refl (s : string) : String.compare s s = Eq.
Proof.
  pose proof (String.compare_antisym s s) as H.
  destruct (String.compare s s); [reflexivity | discriminate | discriminate].
Qed.

Lemma string_compare_lt_trans (a b c : string) :
  String.compare a b = Lt -> String.compare b c = Lt -> String.compare a c = Lt.
Proof.
  revert b c; induction a as [|x a IH]; intros [|y b] [|z c]; simpl;
    try reflexivity; try discriminate.
  destruct (Ascii.compare x y) eqn:Exy; try discriminate.
  - apply Ascii.compare_eq_iff in Exy as ->.
    destruct (Ascii.compare y z); try discriminate; [apply IH | reflexivity].
  - intros _. destruct (Ascii.compare y z) eqn:Eyz; try discriminate.
    + apply Ascii.compare_eq_iff in Eyz as <-. now rewrite Exy.
    + now rewrite (ascii_compare_lt_trans _ _ _ Exy Eyz).
Qed.

(** Not being smaller is transitive. *)
Lemma parts_lt_false_trans (a b c : list string) :
  parts_lt b a = false -> parts_lt c b = false -> parts_lt c a = false.
Proof.
  revert b c; induction a as [|x a IH]; intros b c Hba Hcb.
  - now destruct c.
  - destruct b as [|y b]; [discriminate|].
    destruct c as [|z c]; [discriminate|].
    simpl in *.
    destruct (String.compare y x) eqn:Eyx; try discriminate.
    + apply String.compare_eq_iff in Eyx as ->.
      destruct (String.compare z x); try discriminate; [|reflexivity].
      eapply IH; eassumption.
    + destruct (String.compare z y) eqn:Ezy; try discriminate.
      * apply String.compare_eq_iff in Ezy as ->. now rewrite Eyx.
      * assert (Hxy : String.compare x y = Lt)
          by (rewrite String.compare_antisym, Eyx; reflexivity).
        assert (Hyz : String.compare y z = Lt)
          by (rewrite String.compare_antisym, Ezy; reflexivity).
        rewrite String.compare_antisym,
          (string_compare_lt_trans _ _ _ Hxy Hyz). reflexivity.
Qed.

(** X2.  Discovery in a directory returns the regular files among what
    the glob lists, each as often as it is listed, none lost and none
    added, and in the order of paths: no file comes anywhere before one
    that is smaller. *)
Theorem find_mp4_files_sorted_permutation
        (fsys : FileSystem) (d : Path) (rec : bool) :
  is_file fsys d = false ->
  Permutation (find_mp4_files fsys d rec)
              (filter (is_file fsys)
                      (if rec then rglob fsys d "*.mp4"
                       else glob fsys d "*.mp4")) /\
  StronglySorted (fun a b => path_lt b a = false) (find_mp4_files fsys d rec).
Proof.
  intros Hd. unfold find_mp4_files. rewrite Hd. split.
  - apply sorted_Permutation.
  - apply Sorted_StronglySorted; [|apply sorted_Sorted].
    intros a b c Hab Hbc. unfold path_lt in *.
    eapply parts_lt_false_trans; eassumption.
Qed.

Lemma find_mp4_files_sorted_permutation_witness :
  is_file Demo.disk Demo.videos = false /\
  StronglySorted (fun a b => path_lt b a = false)
                 (find_mp4_files Demo.disk Demo.videos true).
Proof.
  split; [reflexivity|].
  apply (find_mp4_files_sorted_permutation Demo.disk Demo.videos true eq_refl).
Defined.

(** X3.  What discovery finds in a directory without recursion it also
    finds with recursion. *)
Theorem recursive_discovery_extends (fsys : FileSystem) (d p : Path) :
  is_file fsys d = false ->
  In p (find_mp4_files fsys d false) ->
  In p (find_mp4_files fsys d true).
Proof.
  intros Hd. unfold find_mp4_files. rewrite Hd, !In_sorted, !filter_In.
  intros [Hg Hf]. split; [|exact Hf].
  apply In_glob in Hg as (es & nm & c & Hs & Hin & Hm & ->).
  unfold rglob. rewrite Hs. apply in_map_iff.
  exists (parts d ++ [nm]). split; [reflexivity|].
  cbn [walk]. apply in_flat_map. exists (nm, c). split; [exact Hin|].
  cbn [fst snd]. rewrite Hm. now left.
Qed.

Lemma recursive_discovery_extends_witness :
  In Demo.b_mp4 (find_mp4_files Demo.disk Demo.videos true).
Proof.
  apply (recursive_discovery_extends Demo.disk Demo.videos Demo.b_mp4 eq_refl).
  vm_compute. right. left. reflexivity.
Defined.

(** X4.  Whatever discovery returns for a directory, with or without
    recursion, is a regular file below that directory whose name ends in
    [.mp4]; without recursion it lies in the directory itself. *)
Theorem find_mp4_files_sound (fsys : FileSystem) (d p : Path) (rec : bool) :
  is_file fsys d = false ->
  In p (find_mp4_files fsys d rec) ->
  is_file fsys p = true /\
  anchored p = anchored d /\
  exists mid t,
    parts p = parts d ++ mid ++ [(t ++ ".mp4")%string] /\
    (rec = false -> mid = []).
Proof.
  intros Hd. unfold find_mp4_files. rewrite Hd, In_sorted, filter_In.
  intros [Hg Hf]. split; [exact Hf|]. destruct rec.
  - unfold rglob in Hg. destruct (stat fsys d) as [n|]; [|contradiction].
    apply in_map_iff in Hg as (ps & <- & Hps).
    apply In_walk in Hps as (mid & nm & -> & Hm).
    apply fnmatch_star_mp4 in Hm as [t ->].
    split; [reflexivity|]. exists mid, t. split; [reflexivity | discriminate].
  - apply In_glob in Hg as (es & nm & c & _ & _ & Hm & ->).
    apply fnmatch_star_mp4 in Hm as [t ->].
    split; [reflexivity|]. now exists [], t.
Qed.

Lemma find_mp4_files_sound_witness :
  is_file Demo.disk Demo.c_mp4 = true.
Proof.
  apply (find_mp4_files_sound Demo.disk Demo.videos Demo.c_mp4 true eq_refl).
  vm_compute. right. right. left. reflexivity.
Defined.

(** X5.  A target that is neither a regular file nor a directory, one
    that does not exist among them, gives no candidate, with or without
    recursion. *)
Theorem find_mp4_files_nothing (fsys : FileSystem) (t : Path) (rec : bool) :
  is_file fsys t = false ->
  is_dir fsys t = false ->
  find_mp4_files fsys t rec = [].
Proof.
  unfold find_mp4_files, is_file, is_dir, glob, rglob.
  destruct (stat fsys t) as [[| |es]|]; try discriminate;
    intros _ _; destruct rec; reflexivity.
Qed.

Lemma find_mp4_files_nothing_witness :
  find_mp4_files Demo.disk (input Demo.args_missing) true = [].
Proof.
  apply (find_mp4_files_nothing Demo.disk (input Demo.args_missing) true);
    reflexivity.
Defined.

(** ** More about the output directory *)

Lemma find_entry_set_other (q nm : string) (c : node) (es : list (string * node)) :
  q <> nm -> find_entry q (set_entry nm c es) = find_entry q es.
Proof.
  intros Hq. induction es as [|[n x] es IH]; simpl.
  - destruct (String.eqb_spec nm q); [congruence | reflexivity].
  - destruct (String.eqb_spec n nm) as [-> | Hn]; simpl.
    + destruct (String.eqb_spec nm q); [congruence | reflexivity].
    + destruct (String.eqb n q); [reflexivity | exact IH].
Qed.

(** A file or another thing that is no directory, where the directory
    should be, raises [FileExistsError]. *)
Lemma makedirs_file (ps : list string) (n x : node) :
  lookup ps n = Some x -> x = File \/ x = Other ->
  makedirs ps (Some n) = Raise FileExistsError.
Proof.
  revert n; induction ps as [|nm rest IH]; intros n H Hx; simpl in *.
  - injection H as ->. destruct Hx as [-> | ->]; reflexivity.
  - destruct n as [| |es]; try discriminate.
    destruct (find_entry nm es) as [c|]; [|discriminate].
    now rewrite (IH c H Hx).
Qed.

(** Directories made where nothing was hold directories only. *)
Lemma makedirs_fresh_dirs (ps : list string) (r : node) :
  makedirs ps None = Ok r ->
  forall qs, lookup qs r = None \/ exists es, lookup qs r = Some (Dir es).
Proof.
  revert r; induction ps as [|nm rest IH]; intros r; simpl.
  - intros [= <-] [|q qs]; simpl; eauto.
  - destruct (makedirs rest None) as [c|] eqn:Hc; [|discriminate].
    intros [= <-] [|q qs]; simpl; eauto.
    destruct (String.eqb nm q); [now apply IH | now left].
Qed.

(** What was in the tree is there afterwards, as the kind of thing it
    was; what is new is a directory. *)
Lemma makedirs_keeps (ps : list string) :
  forall n r,
    makedirs ps (Some n) = Ok r ->
    forall qs,
      match lookup qs n with
      | Some File => lookup qs r = Some File
      | Some Other => lookup qs r = Some Other
      | Some (Dir _) => exists es, lookup qs r = Some (Dir es)
      | None => lookup qs r = None \/ exists es, lookup qs r = Some (Dir es)
      end.
Proof.
  induction ps as [|nm rest IH]; intros n r; simpl.
  - destruct n as [| |es]; try discriminate. intros [= <-] qs.
    destruct (lookup qs (Dir es)) as [[| |]|]; eauto.
  - destruct n as [| |es]; try discriminate.
    destruct (makedirs rest (find_entry nm es)) as [c'|] eqn:Hc'; [|discriminate].
    intros [= <-] [|q qs]; [simpl; eauto|].
    cbn [lookup].
    destruct (String.eqb_spec q nm) as [-> | Hq].
    + rewrite find_entry_set.
      destruct (find_entry nm es) as [c|].
      * apply (IH c c' Hc' qs).
      * apply (makedirs_fresh_dirs rest c' Hc' qs).
    + rewrite (find_entry_set_other _ _ _ _ Hq).
      destruct (find_entry q es) as [x|]; [|now left].
      destruct (lookup qs x) as [[| |]|]; eauto.
Qed.

(** [mkdir] on a path that exists and is no directory. *)
Lemma mkdir_on_file (fsys : FileSystem) (d : Path) :
  exists_ fsys d = true -> is_dir fsys d = false ->
  mkdir fsys d = Raise FileExistsError.
Proof.
  unfold exists_, is_dir, stat, mkdir.
  destruct (lookup (resolve fsys d) (root fsys)) as [x|] eqn:E; [|discriminate].
  intros _ Hx. rewrite (makedirs_file _ _ x E); [reflexivity|].
  destruct x; [now left | now right | discriminate].
Qed.

(** [mkdir] keeps every regular file a regular file, makes none, and
    keeps what exists. *)
Lemma mkdir_keeps (fsys fs' : FileSystem) (d p : Path) :
  mkdir fsys d = Ok fs' ->
  is_file fs' p = is_file fsys p /\
  (exists_ fsys p = true -> exists_ fs' p = true) /\
  (is_dir fsys p = true -> is_dir fs' p = true).
Proof.
  unfold mkdir.
  destruct (makedirs (resolve fsys d) (Some (root fsys))) as [r|] eqn:Hr;
    [|discriminate].
  intros [= <-]. unfold is_file, exists_, is_dir, stat.
  change (resolve (mkFS r (cwd fsys)) p) with (resolve fsys p). simpl root.
  pose proof (makedirs_keeps _ _ _ Hr (resolve fsys p)) as H.
  destruct (lookup (resolve fsys p) (root fsys)) as [[| |es]|].
  - rewrite H. repeat split; auto.
  - rewrite H. repeat split; auto.
  - destruct H as [es' ->]. repeat split; auto.
  - destruct H as [-> | [es' ->]]; repeat split; auto; discriminate.
Qed.

Lemma with_suffix_joined (d f : Path) :
  name f <> EmptyString ->
  with_suffix (joinname d (name f)) ".mp3" =
  Ok (mkPath (anchored d) (parts d ++ [(stem f ++ ".mp3")%string])).
Proof.
  intros Hn.
  assert (Hj : joinname d (name f) = mkPath (anchored d) (parts d ++ [name f])).
  { unfold joinname. destruct (String.eqb_spec (name f) ""); [contradiction | reflexivity]. }
  assert (Hjn : name (joinname d (name f)) = name f)
    by (rewrite Hj; apply name_snoc).
  rewrite with_suffix_mp3 by (now rewrite Hjn).
  unfold stem, suffix. rewrite Hjn, Hj. simpl. now rewrite removelast_last.
Qed.

Lemma is_file_exists (fsys : FileSystem) (p : Path) :
  is_file fsys p = true -> exists_ fsys p = true.
Proof.
  unfold is_file, exists_. destruct (stat fsys p); [reflexivity | discriminate].
Qed.

Lemma filter_nil_no_failed (os : list ConversionOutcome) :
  filter is_failed os = [] -> forall code, ~ In (Failed code) os.
Proof.
  intros H code Hin.
  assert (Hf : In (Failed code) (filter is_failed os))
    by (apply filter_In; now split).
  rewrite H in Hf. contradiction.
Qed.

(** ** More about the script *)

Section Coverage.

Context {Env : Type}.
Variable shutil_which : string -> @World Env -> option string.
Variable subprocess_run : list string -> @World Env -> completion * @World Env.

(** The path [build_output_path] returns does not depend on the world. *)
Lemma build_output_path_value (src : Path) (out : option Path)
      (w w1 : @World Env) (dst : Path) (l : list event) :
  build_output_path src out w = (Ok dst, w1, l) ->
  with_suffix (match out with
               | None => src
               | Some d => joinname d (name src)
               end) ".mp3" = Ok dst.
Proof.
  unfold build_output_path, bind, Path_mkdir, lift. destruct out as [d|].
  - destruct (mkdir (fs w) d); [|discriminate].
    destruct (with_suffix (joinname d (name src)) ".mp3"); [|discriminate].
    now intros [= ->].
  - now intros [= -> _ _].
Qed.

(** The world [convert_one] leaves is the one the tool left. *)
Lemma convert_one_world (src dst : Path) (rate : string) (force : bool)
      (w w' : @World Env) (r : res Z) (l : list event) :
  convert_one subprocess_run src dst rate force w = (r, w', l) ->
  w' = snd (subprocess_run (ffmpeg_cmd src dst rate force) w).
Proof.
  unfold convert_one.
  destruct (subprocess_run _ w) as [[code|] w1]; now intros [= _ <- _].
Qed.

(** X6.  Every file discovery returns has a name, so that without an
    output directory [build_output_path] raises no [ValueError] on it:
    it returns the path beside the file, with the same stem and the
    suffix [.mp3], and leaves the world as it is. *)
Theorem discovered_files_get_output_paths
        (target : Path) (rec : bool) (p : Path) (w : @World Env) :
  In p (find_mp4_files (fs w) target rec) ->
  exists q,
    build_output_path p None w = (Ok q, w, []) /\
    parent q = parent p /\ stem q = stem p /\ suffix q = ".mp3".
Proof.
  intros Hin.
  pose proof (find_mp4_files_named (fs w) target rec) as Hnames.
  rewrite Forall_forall in Hnames. specialize (Hnames p Hin).
  unfold build_output_path, lift. rewrite (with_suffix_mp3 _ Hnames).
  eexists. split; [reflexivity|].
  destruct (with_suffix_mp3_shape _ _ Hnames (with_suffix_mp3 _ Hnames))
    as (Hp & Hs & Hx & _).
  auto.
Qed.

(** X7.  An output directory that exists and is no directory stops the
    run at the first candidate: [build_output_path] raises
    [FileExistsError] and leaves the world as it was; nothing is printed
    and no program is started, and the process ends with status 1. *)
Theorem output_dir_on_a_file_aborts
        (args : Namespace) (d : Path) (w : @World Env) :
  output_dir args = Some d ->
  exists_ (fs w) d = true ->
  is_dir (fs w) d = false ->
  shutil_which "ffmpeg" w <> None ->
  exists_ (fs w) (input args) = true ->
  find_mp4_files (fs w) (input args) (recursive args) <> [] ->
  (forall f, build_output_path f (Some d) w = (Raise FileExistsError, w, [])) /\
  run shutil_which subprocess_run args w = (1%Z, w, [Which "ffmpeg"]).
Proof.
  intros Hout Hex Hnd Hw Hin Hfound.
  assert (Hb : forall f,
             build_output_path f (Some d) w = (Raise FileExistsError, w, [])).
  { intros f. unfold build_output_path, bind, Path_mkdir.
    now rewrite (mkdir_on_file _ _ Hex Hnd). }
  split; [exact Hb|].
  unfold run. rewrite main_unfold, Hin.
  destruct (shutil_which "ffmpeg" w); [|contradiction].
  destruct (find_mp4_files (fs w) (input args) (recursive args)) as [|p ps];
    [contradiction|].
  cbv zeta. rewrite for_each_cons, loop_body_unfold, Hout, Hb. reflexivity.
Qed.

(** X8.  Building the output path a second time, in the world the first
    time left, gives the same path and changes nothing: the output
    directory is made once. *)
Theorem build_output_path_again
        (f d q : Path) (w w' : @World Env) (l : list event) :
  build_output_path f (Some d) w = (Ok q, w', l) ->
  build_output_path f (Some d) w' = (Ok q, w', []).
Proof.
  unfold build_output_path, bind, Path_mkdir, lift.
  destruct (mkdir (fs w) d) as [fs'|] eqn:Hmk; [|discriminate].
  destruct (with_suffix (joinname d (name f)) ".mp3") as [q'|]; [|discriminate].
  intros [= -> <- _]. simpl fs.
  destruct (mkdir_clear _ _ (mkdir_ok_clear _ _ _ Hmk)) as (fs2 & Hmk2 & _ & Hdirs).
  rewrite Hmk in Hmk2. injection Hmk2 as <-.
  assert (Hd : is_dir fs' d = true).
  { rewrite Forall_forall in Hdirs. apply Hdirs. unfold ancestors.
    apply in_map_iff. exists (List.length (parts d)).
    rewrite firstn_all. split; [now destruct d|]. apply in_seq. lia. }
  now rewrite (mkdir_existing _ _ Hd).
Qed.

(** X9.  Whatever [build_output_path] does to the world, it keeps the
    state outside the file tree, keeps every regular file a regular
    file, makes none, and removes nothing that exists. *)
Theorem build_output_path_keeps_files
        (f : Path) (out : option Path) (w : @World Env) (p : Path) :
  let w' := snd (fst (build_output_path f out w)) in
  env w' = env w /\
  is_file (fs w') p = is_file (fs w) p /\
  (exists_ (fs w) p = true -> exists_ (fs w') p = true) /\
  (is_dir (fs w) p = true -> is_dir (fs w') p = true).
Proof.
  unfold build_output_path, bind, Path_mkdir, lift. destruct out as [d|];
    [|simpl; auto].
  destruct (mkdir (fs w) d) as [fs'|] eqn:Hmk; [|simpl; auto].
  destruct (with_suffix (joinname d (name f)) ".mp3"); simpl;
    (split; [reflexivity | apply (mkdir_keeps _ _ _ _ Hmk)]).
Qed.

(** X10.  With an output directory, two inputs with the same stem get
    the same output path, whatever directories they are in. *)
Theorem same_stem_same_output (f1 f2 d : Path) (w : @World Env) :
  name f1 <> EmptyString ->
  name f2 <> EmptyString ->
  stem f1 = stem f2 ->
  build_output_path f1 (Some d) w = build_output_path f2 (Some d) w.
Proof.
  intros H1 H2 Hs. unfold build_output_path, bind, Path_mkdir, lift.
  now rewrite (with_suffix_joined d f1 H1), (with_suffix_joined d f2 H2), Hs.
Qed.

(** X11.  When the loop returns, the programs it started are one per
    candidate, in the order of the candidates, each the command of
    [convert_one] for that candidate and its output path. *)
Theorem batch_commands_in_order (args : Namespace) (total : Z) (inputs : list Path) :
  forall idx failures (w w' : @World Env) failures' l,
    for_each subprocess_run args total idx inputs failures w
    = (Ok failures', w', l) ->
    Forall2
      (fun e src =>
         exists dst c,
           e = Exec (ffmpeg_cmd src dst (bitrate args) (overwrite args)) c /\
           with_suffix (match output_dir args with
                        | None => src
                        | Some d => joinname d (name src)
                        end) ".mp3" = Ok dst)
      (execs l) inputs.
Proof.
  induction inputs as [|src rest IH]; intros idx failures w w' failures' l.
  - simpl. unfold ret. intros [= _ _ <-]. constructor.
  - rewrite for_each_cons, loop_body_unfold.
    destruct (build_output_path src (output_dir args) w) as [[[dst|e] w1] l0] eqn:Hb;
      [|discriminate].
    pose proof (build_output_path_value _ _ _ _ _ _ Hb) as Hdst.
    apply build_output_path_silent in Hb as ->.
    destruct (convert_one_returns subprocess_run src dst (bitrate args)
                                  (overwrite args) w1)
      as (code & w2 & lc & Hc & _).
    pose proof (convert_one_cases _ _ _ _ _ _ _ _ _ Hc) as Hcases.
    rewrite Hc. cbv zeta.
    destruct (classify code (overwrite args) (exists_ (fs w2) dst));
      destruct (for_each subprocess_run args total (idx + 1) rest _ w2)
        as [[r w3] l2] eqn:Hrest;
      intros [= -> <- <-];
      specialize (IH _ _ _ _ _ _ Hrest);
      unfold execs in *;
      cbn [app filter is_exec]; rewrite ?filter_app;
      (destruct Hcases as [-> | [_ ->]]);
      cbn [app filter is_exec];
      (constructor; [eexists; eexists; split; [reflexivity | exact Hdst]
                    | exact IH]).
Qed.

(** X16.  Without an output directory the script changes nothing
    itself: with a tool that leaves the world as it is, the world after
    [main] is the world before. *)
Theorem script_writes_nothing_itself (args : Namespace) (w : @World Env) :
  output_dir args = None ->
  (forall cmd w0, snd (subprocess_run cmd w0) = w0) ->
  snd (fst (main shutil_which subprocess_run args w)) = w.
Proof.
  intros Hout Htool.
  assert (Hloop :
    forall total inputs idx failures w0,
      snd (fst (for_each subprocess_run args total idx inputs failures w0)) = w0).
  { intros total inputs.
    induction inputs as [|src rest IH]; intros idx failures w0; [reflexivity|].
    rewrite for_each_cons, loop_body_unfold, Hout.
    unfold build_output_path, lift.
    destruct (with_suffix src ".mp3") as [dst|e]; [|reflexivity].
    destruct (convert_one subprocess_run src dst (bitrate args) (overwrite args) w0)
      as [[[code|e] w2] lc] eqn:Hc;
      apply convert_one_world in Hc; rewrite Htool in Hc; subst w2;
      [|reflexivity].
    cbv zeta.
    destruct (classify code (overwrite args) (exists_ (fs w0) dst));
      match goal with
      | |- context [for_each subprocess_run args total (idx + 1) rest ?f w0] =>
          specialize (IH (idx + 1)%Z f w0);
          destruct (for_each subprocess_run args total (idx + 1) rest f w0)
            as [[r w3] l2]
      end; exact IH. }
  rewrite main_unfold.
  destruct (shutil_which "ffmpeg" w); [|reflexivity].
  destruct (exists_ (fs w) (input args)); [|reflexivity].
  destruct (find_mp4_files (fs w) (input args) (recursive args)) as [|p ps];
    [reflexivity|].
  cbv zeta.
  specialize (Hloop (Z.of_nat (List.length (p :: ps))) (p :: ps) 1%Z 0%Z w).
  destruct (for_each subprocess_run args (Z.of_nat (List.length (p :: ps))) 1
                     (p :: ps) 0 w) as [[[f|e] w'] l]; [|exact Hloop].
  destruct (f =? 0)%Z; exact Hloop.
Qed.

(** X12.  Once the arguments are parsed, the status [main] ends the
    process with is 2 exactly when the tool is installed and the input
    path does not exist. *)
Theorem exit_2_iff_missing_input (args : Namespace) (w : @World Env) :
  fst (fst (run shutil_which subprocess_run args w)) = 2%Z <->
  shutil_which "ffmpeg" w <> None /\ exists_ (fs w) (input args) = false.
Proof.
  unfold run. rewrite main_unfold.
  destruct (shutil_which "ffmpeg" w) as [where_|].
  2:{ simpl. split; [discriminate | intros [H _]; now contradiction H]. }
  destruct (exists_ (fs w) (input args)).
  2:{ simpl. split; [intros _; split; [discriminate | reflexivity] | reflexivity]. }
  destruct (find_mp4_files (fs w) (input args) (recursive args)) as [|p ps].
  { simpl. split; [discriminate | intros [_ H]; discriminate H]. }
  cbv zeta.
  destruct (for_each subprocess_run args (Z.of_nat (List.length (p :: ps))) 1
                     (p :: ps) 0 w) as [[[f|e] w'] l] eqn:Hloop.
  - destruct (f =? 0)%Z; simpl;
      (split; [discriminate | intros [_ H]; discriminate H]).
  - split; [|intros [_ H]; discriminate H].
    destruct e as [code| | |]; simpl; try discriminate.
    exfalso. eapply for_each_raises; [exact Hloop | reflexivity].
Qed.

(** X13.  Once the arguments are parsed, the status [main] ends the
    process with is 0 exactly when the tool is installed, the input
    exists, discovery finds at least one candidate, the batch gets
    through all of them and none is classed as failed. *)
Theorem exit_0_iff_no_failure (args : Namespace) (w : @World Env) :
  fst (fst (run shutil_which subprocess_run args w)) = 0%Z <->
  shutil_which "ffmpeg" w <> None /\
  exists_ (fs w) (input args) = true /\
  find_mp4_files (fs w) (input args) (recursive args) <> [] /\
  List.length
    (outcomes subprocess_run args
              (find_mp4_files (fs w) (input args) (recursive args)) w)
  = List.length (find_mp4_files (fs w) (input args) (recursive args)) /\
  (forall code,
      ~ In (Failed code)
           (outcomes subprocess_run args
                     (find_mp4_files (fs w) (input args) (recursive args)) w)).
Proof.
  unfold run. rewrite main_unfold.
  destruct (shutil_which "ffmpeg" w) as [where_|].
  2:{ simpl. split; [discriminate | intros [H _]; now contradiction H]. }
  destruct (exists_ (fs w) (input args)).
  2:{ simpl. split; [discriminate | intros (_ & H & _); discriminate H]. }
  destruct (find_mp4_files (fs w) (input args) (recursive args)) as [|p ps].
  { simpl. split; [discriminate | intros (_ & _ & H & _); now contradiction H]. }
  cbv zeta.
  destruct (for_each subprocess_run args (Z.of_nat (List.length (p :: ps))) 1
                     (p :: ps) 0 w) as [[[f|e] w'] l] eqn:Hloop.
  - pose proof (for_each_counts _ _ _ _ _ _ _ _ _ _ Hloop) as (Hf & Hlen & _).
    destruct (Z.eqb_spec f 0) as [-> | Hne]; cbn [fst exit_status].
    + split; [intros _ | reflexivity].
      split; [discriminate|]. split; [reflexivity|]. split; [discriminate|].
      split; [exact Hlen|].
      apply filter_nil_no_failed, length_zero_iff_nil. lia.
    + split; [discriminate|]. intros (_ & _ & _ & _ & Hnf).
      rewrite (no_failed_filter _ Hnf) in Hf. simpl in Hf. lia.
  - split.
    + destruct e as [code| | |]; simpl; try discriminate.
      intros _. exfalso. eapply for_each_raises; [exact Hloop | reflexivity].
    + intros (_ & _ & _ & Hlen & _).
      destruct (for_each_returns subprocess_run args
                  (Z.of_nat (List.length (p :: ps))) (p :: ps) 1%Z 0%Z w Hlen)
        as (f & w2 & l2 & Hok).
      rewrite Hok in Hloop. discriminate.
Qed.

(** X14.  When the batch gets through all its candidates and some are
    classed as failed, [main] returns 1 and its last line, on the
    standard output, reads: done, successes, the number of candidates
    less the number of failed ones in decimal, failures, the number of
    failed ones in decimal. *)
Theorem failure_summary_counts (args : Namespace) (w : @World Env) :
  shutil_which "ffmpeg" w <> None ->
  exists_ (fs w) (input args) = true ->
  List.length
    (outcomes subprocess_run args
              (find_mp4_files (fs w) (input args) (recursive args)) w)
  = List.length (find_mp4_files (fs w) (input args) (recursive args)) ->
  (exists code,
      In (Failed code)
         (outcomes subprocess_run args
                   (find_mp4_files (fs w) (input args) (recursive args)) w)) ->
  exists w' l,
    main shutil_which subprocess_run args w =
    (Ok 1%Z, w',
     l ++ [Stdout
             ("완료: 성공 "
              ++ pystr.of_int
                   (Z.of_nat (List.length
                      (find_mp4_files (fs w) (input args) (recursive args)))
                    - Z.of_nat (List.length
                        (filter is_failed
                           (outcomes subprocess_run args
                              (find_mp4_files (fs w) (input args)
                                              (recursive args)) w))))
              ++ " / 실패 "
              ++ pystr.of_int
                   (Z.of_nat (List.length
                      (filter is_failed
                         (outcomes subprocess_run args
                            (find_mp4_files (fs w) (input args)
                                            (recursive args)) w)))))]).
Proof.
  intros Hw Hex Hlen [code Hfailed]. rewrite main_unfold, Hex.
  destruct (shutil_which "ffmpeg" w); [|contradiction].
  destruct (find_mp4_files (fs w) (input args) (recursive args)) as [|p ps];
    [contradiction|].
  cbv zeta.
  destruct (for_each_returns subprocess_run args
              (Z.of_nat (List.length (p :: ps))) (p :: ps) 1%Z 0%Z w Hlen)
    as (f & w' & l & Hloop).
  rewrite Hloop.
  apply for_each_counts in Hloop as (Hf & _ & _).
  assert (Hpos : 0 < List.length
                      (filter is_failed (outcomes subprocess_run args (p :: ps) w))).
  { assert (Hin : In (Failed code)
                     (filter is_failed (outcomes subprocess_run args (p :: ps) w)))
      by (apply filter_In; now split).
    destruct (filter is_failed (outcomes subprocess_run args (p :: ps) w));
      [contradiction | simpl; lia]. }
  destruct (Z.eqb_spec f 0); [lia|].
  exists w', (Which "ffmpeg" :: l). simpl app. rewrite Hf, Z.add_0_l.
  reflexivity.
Qed.

(** X15.  With the overwrite flag a return code of 1 is a failure like
    any other, whether or not the output exists: when the loop returns,
    the counter has grown by the number of programs that did not return
    0 or could not be started, and no skip notice was printed. *)
Theorem overwrite_counts_every_nonzero_code
        (args : Namespace) (total : Z) (inputs : list Path) :
  overwrite args = true ->
  forall idx failures (w w' : @World Env) failures' l,
    for_each subprocess_run args total idx inputs failures w
    = (Ok failures', w', l) ->
    failures' =
    (failures + Z.of_nat (List.length (filter is_unsuccessful l)))%Z /\
    forall dst,
      ~ In (Stdout ("스킵: 출력 파일이 이미 존재합니다 (덮어쓰지 않음): "
                    ++ str dst)) l.
Proof.
  intros Hy. induction inputs as [|src rest IH];
    intros idx failures w w' failures' l.
  - simpl. unfold ret. intros [= <- _ <-]. simpl. split; [lia | tauto].
  - rewrite for_each_cons.
    destruct (loop_body subprocess_run args total idx src failures w)
      as [[[f1|e] w1] l1] eqn:Hbody; [|discriminate].
    destruct (for_each subprocess_run args total (idx + 1) rest f1 w1)
      as [[r w3] l2] eqn:Hrest.
    intros [= -> <- <-].
    destruct (IH _ _ _ _ _ _ Hrest) as (Hf & Hns).
    assert (Hturn :
      f1 = (failures + Z.of_nat (List.length (filter is_unsuccessful l1)))%Z /\
      forall dst,
        ~ In (Stdout ("스킵: 출력 파일이 이미 존재합니다 (덮어쓰지 않음): "
                      ++ str dst)) l1).
    { unfold loop_body, bind, print, eprint, emit, ret, Path_exists, reads
        in Hbody.
      destruct (build_output_path src (output_dir args) w)
        as [[[dst|e] w0] l0] eqn:Hb; [|discriminate].
      apply build_output_path_silent in Hb as ->.
      destruct (convert_one subprocess_run src dst (bitrate args)
                            (overwrite args) w0)
        as [[[code|e] w2] lc] eqn:Hc; [|discriminate].
      pose proof (convert_one_cases _ _ _ _ _ _ _ _ _ Hc) as Hcases.
      rewrite Hy in Hbody. rewrite andb_false_r in Hbody.
      destruct (Z.eqb_spec code 0) as [E0 | E0].
      - injection Hbody as <- _ <-.
        destruct Hcases as [-> | [E127 _]]; [|lia]. subst code.
        split; [simpl; lia|].
        intros d [H | [H | []]]; discriminate H.
      - injection Hbody as <- _ <-.
        destruct Hcases as [-> | [-> ->]].
        + split.
          * cbn [app filter is_unsuccessful].
            destruct (Z.eqb_spec code 0); [contradiction|]. simpl. lia.
          * intros d [H | [H | [H | []]]]; discriminate H.
        + split; [simpl; lia|].
          intros d [H | [H | [H | [H | []]]]]; discriminate H. }
    destruct Hturn as (Hf1 & Hns1).
    split.
    + rewrite filter_app, length_app. lia.
    + intros d Hin. apply in_app_or in Hin as [Hin | Hin];
        [exact (Hns1 d Hin) | exact (Hns d Hin)].
Qed.

(** X17.  Once the arguments are parsed, whatever they are: when the
    tool is not installed the run looks the tool up, prints the
    installation notice, seven lines in one write, on the error stream
    and ends with status 127, the world untouched and nothing else
    done. *)
Theorem missing_tool_stops_everything (args : Namespace) (w : @World Env) :
  shutil_which "ffmpeg" w = None ->
  run shutil_which subprocess_run args w =
  (127%Z, w,
   [ Which "ffmpeg";
     Stderr
       (String.concat (String (ascii_of_nat 10) EmptyString)
          [ "ffmpeg가 설치되어 있지 않습니다.";
            "설치 방법:";
            "- macOS (Homebrew): brew install ffmpeg";
            "- Ubuntu/Debian:   sudo apt-get update && sudo apt-get install -y ffmpeg";
            "- Windows (scoop):  scoop install ffmpeg";
            "- Windows (choco):  choco install ffmpeg";
            "설치 후 다시 시도하세요." ]) ]).
Proof.
  intros Hw. unfold run. now rewrite main_unfold, Hw.
Qed.

(** X18.  One regular file with the extension [.mp4] in any mix of
    cases, no output directory, and a tool that returns 0: [main] prints
    the progress line, numbered 1 of 1 and naming the input and the
    [.mp3] beside it, starts the one command that writes that file,
    prints the summary of success for 1 file and returns 0. *)
Theorem single_file_run (args : Namespace) (w w2 : @World Env) :
  shutil_which "ffmpeg" w <> None ->
  is_file (fs w) (input args) = true ->
  mp4_extension (input args) ->
  output_dir args = None ->
  subprocess_run
    (ffmpeg_cmd (input args)
                (mkPath (anchored (input args))
                        (removelast (parts (input args))
                         ++ [(stem (input args) ++ ".mp3")%string]))
                (bitrate args) (overwrite args)) w
  = (Returned 0, w2) ->
  main shutil_which subprocess_run args w =
  (Ok 0%Z, w2,
   [ Which "ffmpeg";
     Stdout ("[1/1] 변환 중: " ++ str (input args) ++ " -> "
             ++ str (mkPath (anchored (input args))
                            (removelast (parts (input args))
                             ++ [(stem (input args) ++ ".mp3")%string])));
     Exec (ffmpeg_cmd (input args)
             (mkPath (anchored (input args))
                     (removelast (parts (input args))
                      ++ [(stem (input args) ++ ".mp3")%string]))
             (bitrate args) (overwrite args))
          (Returned 0);
     Stdout "완료: 총 1개 파일 변환 성공" ]).
Proof.
  intros Hw Hfile Hext Hout Htool.
  assert (Hn : name (input args) <> EmptyString).
  { destruct Hext as (st & e & Hnm & Hst & _). rewrite Hnm.
    destruct st; [contradiction | discriminate]. }
  rewrite main_unfold, (is_file_exists _ _ Hfile).
  destruct (shutil_which "ffmpeg" w); [|contradiction].
  unfold find_mp4_files. rewrite Hfile.
  apply suffix_lower_mp4 in Hext. rewrite Hext. simpl String.eqb. cbv iota.
  cbv zeta. rewrite for_each_cons, loop_body_unfold, Hout.
  unfold build_output_path, lift. rewrite (with_suffix_mp3 _ Hn).
  unfold convert_one. rewrite Htool. reflexivity.
Qed.


End Coverage.

(** X19.  A regular file named exactly [.mp4] is found when the
    directory that holds it is the target, with and without recursion,
    and is turned down when it is the target itself: its name has no
    suffix. *)
Theorem bare_mp4_name
        (fsys : FileSystem) (d : Path) (es : list (string * node)) (c : node)
        (rec : bool) :
  stat fsys d = Some (Dir es) ->
  In (".mp4", c) es ->
  is_file fsys (mkPath (anchored d) (parts d ++ [".mp4"])) = true ->
  In (mkPath (anchored d) (parts d ++ [".mp4"])) (find_mp4_files fsys d rec) /\
  find_mp4_files fsys (mkPath (anchored d) (parts d ++ [".mp4"])) rec = [].
Proof.
  intros Hs Hin Hf. split.
  - unfold find_mp4_files.
    assert (Hd : is_file fsys d = false) by (unfold is_file; now rewrite Hs).
    rewrite Hd, In_sorted, filter_In. split; [|exact Hf].
    destruct rec.
    + unfold rglob. rewrite Hs. apply in_map_iff.
      exists (parts d ++ [".mp4"]). split; [reflexivity|].
      cbn [walk]. apply in_flat_map. exists (".mp4", c). split; [exact Hin|].
      now left.
    + apply In_glob. now exists es, ".mp4", c.
  - unfold find_mp4_files. rewrite Hf. unfold suffix. now rewrite name_snoc.
Qed.

Lemma bare_mp4_name_witness :
  find_mp4_files (mkFS (Dir [("v", Dir [(".mp4", File)])]) [])
                 (mkPath false ["v"; ".mp4"]) false = [] /\
  In (mkPath false ["v"; ".mp4"])
     (find_mp4_files (mkFS (Dir [("v", Dir [(".mp4", File)])]) [])
                     (mkPath false ["v"]) false).
Proof.
  destruct (bare_mp4_name (mkFS (Dir [("v", Dir [(".mp4", File)])]) [])
                          (mkPath false ["v"]) [(".mp4", File)] File false
                          eq_refl (or_introl eq_refl) eq_refl) as [Hin Hnil].
  split; [exact Hnil | exact Hin].
Defined.

Lemma discovered_files_get_output_paths_witness :
  In Demo.c_mp4 (find_mp4_files (fs Demo.world) Demo.videos true) /\
  exists q,
    build_output_path Demo.c_mp4 None Demo.world = (Ok q, Demo.world, []) /\
    parent q = parent Demo.c_mp4 /\ stem q = stem Demo.c_mp4 /\
    suffix q = ".mp3".
Proof.
  assert (Hin : In Demo.c_mp4 (find_mp4_files (fs Demo.world) Demo.videos true))
    by (vm_compute; right; right; left; reflexivity).
  split; [exact Hin|].
  apply (discovered_files_get_output_paths Demo.videos true Demo.c_mp4
                                           Demo.world Hin).
Defined.

Lemma output_dir_on_a_file_aborts_witness :
  run Demo.installed (Demo.returns 0)
      (mkArgs Demo.videos (Some (mkPath false ["videos"; "notes.txt"]))
              "192k" false false)
      Demo.world
  = (1%Z, Demo.world, [Which "ffmpeg"]).
Proof.
  apply (output_dir_on_a_file_aborts Demo.installed (Demo.returns 0)
           (mkArgs Demo.videos (Some (mkPath false ["videos"; "notes.txt"]))
                   "192k" false false)
           (mkPath false ["videos"; "notes.txt"]) Demo.world);
    solve [reflexivity | discriminate].
Defined.

Lemma build_output_path_again_witness :
  build_output_path Demo.a_mp4 (Some Demo.out)
    (snd (fst (build_output_path Demo.a_mp4 (Some Demo.out) Demo.world)))
  = (Ok (mkPath false ["out"; "audio"; "a.mp3"]),
     snd (fst (build_output_path Demo.a_mp4 (Some Demo.out) Demo.world)),
     []).
Proof.
  apply (build_output_path_again Demo.a_mp4 Demo.out
           (mkPath false ["out"; "audio"; "a.mp3"]) Demo.world
           (snd (fst (build_output_path Demo.a_mp4 (Some Demo.out) Demo.world)))
           []).
  reflexivity.
Defined.

Lemma same_stem_same_output_witness :
  build_output_path Demo.a_mp4 (Some Demo.out) Demo.world
  = build_output_path (mkPath false ["videos"; "old"; "a.mp4"])
                      (Some Demo.out) Demo.world.
Proof.
  apply (same_stem_same_output Demo.a_mp4
           (mkPath false ["videos"; "old"; "a.mp4"]) Demo.out Demo.world);
    solve [reflexivity | discriminate].
Defined.

Lemma batch_commands_in_order_witness :
  Forall2
    (fun e src =>
       exists dst c,
         e = Exec (ffmpeg_cmd src dst (bitrate Demo.args_dir)
                              (overwrite Demo.args_dir)) c /\
         with_suffix (match output_dir Demo.args_dir with
                      | None => src
                      | Some d => joinname d (name src)
                      end) ".mp3" = Ok dst)
    (execs (snd (for_each (Demo.returns 1) Demo.args_dir 2 1
                          [Demo.a_mp4; Demo.b_mp4] 0 Demo.world)))
    [Demo.a_mp4; Demo.b_mp4].
Proof.
  apply (batch_commands_in_order (Demo.returns 1) Demo.args_dir 2
           [Demo.a_mp4; Demo.b_mp4] 1 0 Demo.world Demo.world 1
           (snd (for_each (Demo.returns 1) Demo.args_dir 2 1
                          [Demo.a_mp4; Demo.b_mp4] 0 Demo.world))).
  reflexivity.
Defined.

Lemma failure_summary_counts_witness :
  exists w' l,
    main Demo.installed (Demo.returns 1) Demo.args_dir Demo.world
    = (Ok 1%Z, w', l ++ [Stdout "완료: 성공 1 / 실패 1"]).
Proof.
  apply (failure_summary_counts Demo.installed (Demo.returns 1) Demo.args_dir
                                Demo.world).
  - discriminate.
  - reflexivity.
  - reflexivity.
  - exists 1%Z. vm_compute. left. reflexivity.
Defined.

Lemma overwrite_counts_every_nonzero_code_witness :
  for_each (Demo.returns 1) (mkArgs Demo.b_mp4 None "192k" false true) 1 1
           [Demo.b_mp4] 0 Demo.world
  = (Ok 1%Z, Demo.world,
     [ Stdout "[1/1] 변환 중: videos/b.mp4 -> videos/b.mp3";
       Exec (ffmpeg_cmd Demo.b_mp4 Demo.b_mp3 "192k" true) (Returned 1);
       Stderr "실패 (코드 1): videos/b.mp4" ]) /\
  exists_ (fs Demo.world) Demo.b_mp3 = true /\
  forall dst,
    ~ In (Stdout ("스킵: 출력 파일이 이미 존재합니다 (덮어쓰지 않음): "
                  ++ str dst))
         [ Stdout "[1/1] 변환 중: videos/b.mp4 -> videos/b.mp3";
           Exec (ffmpeg_cmd Demo.b_mp4 Demo.b_mp3 "192k" true) (Returned 1);
           Stderr "실패 (코드 1): videos/b.mp4" ].
Proof.
  split; [reflexivity|]. split; [reflexivity|].
  apply (overwrite_counts_every_nonzero_code (Demo.returns 1)
           (mkArgs Demo.b_mp4 None "192k" false true) 1 [Demo.b_mp4] eq_refl
           1 0 Demo.world Demo.world 1
           [ Stdout "[1/1] 변환 중: videos/b.mp4 -> videos/b.mp3";
             Exec (ffmpeg_cmd Demo.b_mp4 Demo.b_mp3 "192k" true) (Returned 1);
             Stderr "실패 (코드 1): videos/b.mp4" ]
           eq_refl).
Defined.

Lemma script_writes_nothing_itself_witness :
  snd (fst (main Demo.installed (Demo.returns 1) Demo.args_dir Demo.world))
  = Demo.world.
Proof.
  apply (script_writes_nothing_itself Demo.installed (Demo.returns 1)
                                      Demo.args_dir Demo.world).
  - reflexivity.
  - intros cmd w0. reflexivity.
Defined.

Lemma missing_tool_stops_everything_witness :
  fst (fst (run Demo.not_installed (Demo.returns 0) Demo.args_dir Demo.world))
  = 127%Z /\
  snd (run Demo.not_installed (Demo.returns 0) Demo.args_missing Demo.world)
  = snd (run Demo.not_installed (Demo.returns 0) Demo.args_dir Demo.world).
Proof.
  rewrite (missing_tool_stops_everything Demo.not_installed (Demo.returns 0)
             Demo.args_dir Demo.world eq_refl).
  rewrite (missing_tool_stops_everything Demo.not_installed (Demo.returns 0)
             Demo.args_missing Demo.world eq_refl).
  split; reflexivity.
Defined.

Lemma single_file_run_witness :
  main Demo.installed (Demo.returns 0) Demo.args_a Demo.world
  = (Ok 0%Z, Demo.world,
     [ Which "ffmpeg";
       Stdout "[1/1] 변환 중: videos/a.mp4 -> videos/a.mp3";
       Exec [ "ffmpeg"; "-hide_banner"; "-loglevel"; "error"; "-n"; "-i";
              "videos/a.mp4"; "-vn"; "-acodec"; "libmp3lame"; "-b:a"; "192k";
              "videos/a.mp3" ]
            (Returned 0);
       Stdout "완료: 총 1개 파일 변환 성공" ]).
Proof.
  apply (single_file_run Demo.installed (Demo.returns 0) Demo.args_a
                         Demo.world Demo.world).
  - discriminate.
  - reflexivity.
  - exists "a", ".mp4". repeat split; [discriminate | simpl; tauto].
  - reflexivity.
  - reflexivity.
Defined.

Section Progress.

Context {Env : Type}.
Variable subprocess_run : list string -> @World Env -> completion * @World Env.

(** X21.  When the loop returns, its log is one stretch per candidate,
    in order: the progress line, which gives in decimal the number of
    the candidate, counted from the starting index, and the total, and
    names the source and the output, then the command started for it,
    then lines only; no program is started before its progress line is
    printed. *)
Theorem progress_before_every_command
        (args : Namespace) (total : Z) (inputs : list Path) :
  forall idx failures (w w' : @World Env) failures' l,
    for_each subprocess_run args total idx inputs failures w
    = (Ok failures', w', l) ->
    exists stretches,
      l = concat stretches /\
      Forall2
        (fun stretch numbered =>
           exists dst c tail,
             stretch =
             Stdout ("[" ++ pystr.of_int (fst numbered) ++ "/"
                         ++ pystr.of_int total ++ "] 변환 중: "
                         ++ str (snd numbered) ++ " -> " ++ str dst)
             :: Exec (ffmpeg_cmd (snd numbered) dst (bitrate args)
                                 (overwrite args)) c
             :: tail /\
             execs tail = [])
        stretches (enumerate idx inputs).
Proof.
  induction inputs as [|src rest IH]; intros idx failures w w' failures' l.
  - simpl. unfold ret. intros [= _ _ <-]. exists []. split; [reflexivity | constructor].
  - rewrite for_each_cons, loop_body_unfold.
    destruct (build_output_path src (output_dir args) w) as [[[dst|e] w1] l0] eqn:Hb;
      [|discriminate].
    apply build_output_path_silent in Hb as ->.
    destruct (convert_one_returns subprocess_run src dst (bitrate args)
                                  (overwrite args) w1)
      as (code & w2 & lc & Hc & _).
    pose proof (convert_one_cases _ _ _ _ _ _ _ _ _ Hc) as Hcases.
    rewrite Hc. cbv zeta.
    destruct (classify code (overwrite args) (exists_ (fs w2) dst)) as [| |code'];
      destruct (for_each subprocess_run args total (idx + 1) rest _ w2)
        as [[r w3] l2] eqn:Hrest;
      intros [= -> <- <-];
      destruct (IH _ _ _ _ _ _ Hrest) as (stretches & -> & Hall);
      cbn [app enumerate].
    + exists ((Stdout (progress_line idx total src dst) :: lc) :: stretches).
      split; [reflexivity|]. constructor; [|exact Hall].
      destruct Hcases as [-> | [_ ->]]; repeat eexists.
    + exists ((Stdout (progress_line idx total src dst)
                 :: lc ++ [Stdout (skip_line dst)]) :: stretches).
      split; [reflexivity|]. constructor; [|exact Hall].
      destruct Hcases as [-> | [_ ->]]; repeat eexists.
    + exists ((Stdout (progress_line idx total src dst)
                 :: lc ++ [Stderr (failure_line code' src)]) :: stretches).
      split; [reflexivity|]. constructor; [|exact Hall].
      destruct Hcases as [-> | [_ ->]]; repeat eexists.
Qed.

(** X22.  A file whose name is a stem, not empty, followed by [.mp4] in
    any mix of cases gets, without an output directory, the path beside
    it whose name is that stem followed by [.mp3]: all that comes before
    the last dot is kept, other dots included. *)
Theorem mp4_becomes_mp3 (f : Path) (st e : string) (w : @World Env) :
  name f = (st ++ e)%string ->
  st <> EmptyString ->
  In e [".mp4"; ".mP4"; ".Mp4"; ".MP4"] ->
  build_output_path f None w =
  (Ok (mkPath (anchored f) (removelast (parts f) ++ [(st ++ ".mp3")%string])),
   w, []).
Proof.
  intros Hn Hst He.
  assert (Hne : name f <> EmptyString).
  { rewrite Hn. destruct st; [contradiction | discriminate]. }
  assert (Hs : suffix f = e).
  { unfold suffix. rewrite Hn. simpl in He.
    destruct He as [<- | [<- | [<- | [<- | []]]]];
      apply name_suffix_app; solve [assumption | discriminate | reflexivity]. }
  assert (Hstem : stem f = st).
  { unfold stem. rewrite Hs, Hn, length_append.
    replace (String.length st + String.length e - String.length e)
      with (String.length st) by lia.
    apply substring_prefix. }
  unfold build_output_path, lift. now rewrite (with_suffix_mp3 _ Hne), Hstem.
Qed.

End Progress.

Lemma progress_before_every_command_witness :
  for_each (Demo.returns 1) Demo.args_dir 2 1 [Demo.a_mp4; Demo.b_mp4] 0
           Demo.world
  = (Ok 1%Z, Demo.world,
     [ Stdout "[1/2] 변환 중: videos/a.mp4 -> videos/a.mp3";
       Exec (ffmpeg_cmd Demo.a_mp4 Demo.a_mp3 "192k" false) (Returned 1);
       Stderr "실패 (코드 1): videos/a.mp4";
       Stdout "[2/2] 변환 중: videos/b.mp4 -> videos/b.mp3";
       Exec (ffmpeg_cmd Demo.b_mp4 Demo.b_mp3 "192k" false) (Returned 1);
       Stdout "스킵: 출력 파일이 이미 존재합니다 (덮어쓰지 않음): videos/b.mp3" ]) /\
  exists stretches,
    [ Stdout "[1/2] 변환 중: videos/a.mp4 -> videos/a.mp3";
      Exec (ffmpeg_cmd Demo.a_mp4 Demo.a_mp3 "192k" false) (Returned 1);
      Stderr "실패 (코드 1): videos/a.mp4";
      Stdout "[2/2] 변환 중: videos/b.mp4 -> videos/b.mp3";
      Exec (ffmpeg_cmd Demo.b_mp4 Demo.b_mp3 "192k" false) (Returned 1);
      Stdout "스킵: 출력 파일이 이미 존재합니다 (덮어쓰지 않음): videos/b.mp3" ]
    = concat stretches /\
    List.length stretches = 2.
Proof.
  split; [reflexivity|].
  destruct (progress_before_every_command (Demo.returns 1) Demo.args_dir 2
              [Demo.a_mp4; Demo.b_mp4] 1 0 Demo.world Demo.world 1
              [ Stdout "[1/2] 변환 중: videos/a.mp4 -> videos/a.mp3";
                Exec (ffmpeg_cmd Demo.a_mp4 Demo.a_mp3 "192k" false) (Returned 1);
                Stderr "실패 (코드 1): videos/a.mp4";
                Stdout "[2/2] 변환 중: videos/b.mp4 -> videos/b.mp3";
                Exec (ffmpeg_cmd Demo.b_mp4 Demo.b_mp3 "192k" false) (Returned 1);
                Stdout "스킵: 출력 파일이 이미 존재합니다 (덮어쓰지 않음): videos/b.mp3" ]
              eq_refl) as (stretches & Hl & Hall).
  exists stretches. split; [exact Hl|].
  apply Forall2_length in Hall. exact Hall.
Defined.

Lemma mp4_becomes_mp3_witness :
  build_output_path (mkPath true ["srv"; "talk.v2.MP4"]) None Demo.world
  = (Ok (mkPath true ["srv"; "talk.v2.mp3"]), Demo.world, []).
Proof.
  apply (mp4_becomes_mp3 (mkPath true ["srv"; "talk.v2.MP4"]) "talk.v2" ".MP4"
                         Demo.world).
  - reflexivity.
  - discriminate.
  - simpl. tauto.
Defined.
